(** * Task-lifecycle orchestration of the task-tracking service

    A shallow embedding of the request handlers of the task service
    (package main of the Go sources: [createTask], [updateTask],
    [removeTask], [removeAllTasks], [createInvoiceInBillingService], the
    route table of [main]) and of the authorization gate
    ([isAdmin], [adminMiddleware]).

    A handler is a function from the request and the state of the outside
    world (the task collection, the requests handed to the billing
    service) to a response and a new state.  What the handlers obtain from
    libraries and remote services is collected in [Env].

    The development also covers the bootstrap of the two stores
    ([ensureDatabaseAndCollection]), the handlers and the route table of
    the billing service ([BillingService]) and the movie lookup service
    ([MovieInfo]). *)

From Stdlib Require Import ZArith NArith Ascii String Floats.PrimFloat.
From stdpp Require Import gmap strings list fin_maps.

Local Open Scope string_scope.
Local Open Scope Z_scope.
Set Warnings "-register-all".

(** ** Data model *)

(** [primitive.ObjectID] is a 12-byte array; it is kept as the number its
    bytes spell.  [NilObjectID] is the zero value. *)
Definition ObjectID : Type := N.
Definition NilObjectID : ObjectID := 0%N.

(** [time.Time] as stored by the collection: milliseconds since the epoch. *)
Definition Time : Type := Z.

(** Dynamic values: what [interface{}] holds after [encoding/json] decoded
    a body ([VNull] .. [VObj]; a JSON number is a [float64]), and what a BSON
    document holds in addition ([VTime], [VOid]).  [VNull] is Go's [nil]. *)
Inductive Value : Type :=
  | VNull
  | VBool (b : bool)
  | VNum (f : float)
  | VStr (s : string)
  | VArr (l : list Value)
  | VObj (l : list (string * Value))
  | VTime (t : Time)
  | VOid (o : ObjectID).

(** A BSON document ([bson.M]). *)
Abbreviation Doc := (gmap string Value).

Record Task : Type := mkTask {
  ID : ObjectID;
  Title : string;
  Description : string;
  AssignedTo : ObjectID;
  Status : string;
  Hours : float;
  StartDate : Time;
  EndDate : Time;
  InvoiceID : ObjectID;
  ParentTask : option ObjectID
}.

Record Billing : Type := mkBilling {
  BillingID : ObjectID;
  UserID : ObjectID;
  TaskID : ObjectID;
  BillingHours : float;
  Amount : float
}.

(** ** Requests, responses, the outside world *)

Inductive Body : Type :=
  | BEmpty
  | BText (msg : string)
  | BTask (t : Task)
  | BTasks (ts : list Task)
  | BTaskWithSubtasks (t : Task) (subtasks : list Task).

Record Response : Type := mkResponse { code : nat; body : Body }.

(** [http.Error(w, msg, code)] *)
Definition httpError (msg : string) (c : nat) : Response :=
  {| code := c; body := BText msg |}.

Definition StatusOK : nat := 200.
Definition StatusNoContent : nat := 204.
Definition StatusMovedPermanently : nat := 301.
Definition StatusBadRequest : nat := 400.
Definition StatusUnauthorized : nat := 401.
Definition StatusNotFound : nat := 404.
Definition StatusMethodNotAllowed : nat := 405.
Definition StatusInternalServerError : nat := 500.

(** The parts of [*http.Request] the handlers read.  The body is given by
    what [encoding/json] makes of it: [bodyTask] is the result of decoding
    it into a [Task] (every field with a json tag can be filled, also
    [invoice_id]), [bodyMap] the result of decoding it into a
    [map[string]interface{}], listed in the order in which [range] visits the
    map (a map has each key once); [None] is a decoding error. *)
Record Request : Type := mkRequest {
  method : string;
  path : string;
  headerUserID : string;
  queryUserID : string;
  bodyTask : option Task;
  bodyMap : option (list (string * Value))
}.

(** The outcome of an HTTP call to another service: the transport failed,
    or a response came back with a status code and a body that decodes
    (or not) into the expected structure. *)
Inductive HttpResult (A : Type) : Type :=
  | HttpFailed
  | HttpResponded (status : nat) (decoded : option A).
Arguments HttpFailed {A}.
Arguments HttpResponded {A} status decoded.

Inductive DbOp : Type :=
  | OpFind | OpCursorAll | OpFindOne | OpInsertOne | OpUpdateOne
  | OpDeleteOne | OpDeleteMany.

(** Everything a handler obtains from outside the source files during one
    request: library functions ([time.Parse] with the RFC 3339 layout, the
    driver's decoding of a document into a [Task], [NewObjectID]), whether
    a call to the store returns an error, and the answers of the billing
    and user services. *)
Record Env : Type := mkEnv {
  parseRFC3339 : string -> option Time;
  decodeTask : Doc -> option Task;
  NewObjectID : ObjectID;
  dbFails : DbOp -> bool;
  billingService : Billing -> HttpResult Billing;
  userService : string -> HttpResult string
}.

(** The state outside the process: the collection [taskmanagement.tasks],
    keyed by [_id], and the requests handed to the billing service so far,
    oldest first. *)
Record World : Type := mkWorld {
  tasks : gmap ObjectID Doc;
  billingRequests : list Billing
}.

Definition setTasks (w : World) (ts : gmap ObjectID Doc) : World :=
  {| tasks := ts; billingRequests := billingRequests w |}.

Definition Handler : Type := Env -> Request -> World -> Response * World.

(** ** Library functions the handlers call *)

Definition hexDigit (c : ascii) : option N :=
  let n := N_of_ascii c in
  if ((48 <=? n) && (n <=? 57))%N then Some (n - 48)%N
  else if ((97 <=? n) && (n <=? 102))%N then Some (n - 87)%N
  else if ((65 <=? n) && (n <=? 70))%N then Some (n - 55)%N
  else None.

Fixpoint hexValue (acc : N) (s : string) : option N :=
  match s with
  | EmptyString => Some acc
  | String c s' =>
      match hexDigit c with
      | Some d => hexValue (16 * acc + d)%N s'
      | None => None
      end
  end.

(** [primitive.ObjectIDFromHex]: exactly 24 hexadecimal digits. *)
Definition ObjectIDFromHex (s : string) : option ObjectID :=
  if Nat.eqb (String.length s) 24 then hexValue 0%N s else None.

(** [s[n:]] for a string at least [n] long. *)
Fixpoint strDrop (n : nat) (s : string) : string :=
  match n, s with
  | O, _ => s
  | S n', String _ s' => strDrop n' s'
  | S _, EmptyString => EmptyString
  end.
Arguments strDrop : simpl never.

(** [m[k]] on a Go map: the value, or [nil] when the key is absent. *)
Fixpoint mapIndex (m : list (string * Value)) (k : string) : Value :=
  match m with
  | [] => VNull
  | (k', v) :: m' => if String.eqb k' k then v else mapIndex m' k
  end.

(** [v == "done"] for an [interface{}] [v]. *)
Definition isDone (v : Value) : bool :=
  match v with
  | VStr s => String.eqb s "done"
  | _ => false
  end.

(** [encoding/json] refuses NaN and the infinities. *)
Definition jsonFloat (f : float) : bool := negb (is_nan f || is_infinity f).

Definition jsonMarshalBilling (b : Billing) : bool :=
  jsonFloat (BillingHours b) && jsonFloat (Amount b).

(** The driver's encoding of a [Task] by its bson tags: [invoice_id] and
    [parent_task] are [omitempty]. *)
Definition encodeTask (t : Task) : Doc :=
  let d : Doc :=
    <["_id" := VOid (ID t)]>
    (<["title" := VStr (Title t)]>
    (<["description" := VStr (Description t)]>
    (<["assigned_to" := VOid (AssignedTo t)]>
    (<["status" := VStr (Status t)]>
    (<["hours" := VNum (Hours t)]>
    (<["start_date" := VTime (StartDate t)]>
    (<["end_date" := VTime (EndDate t)]> ∅))))))) in
  let d : Doc :=
    if N.eqb (InvoiceID t) NilObjectID then d
    else <["invoice_id" := VOid (InvoiceID t)]> d in
  match ParentTask t with
  | None => d
  | Some p => <["parent_task" := VOid p]> d
  end.

(** ** The store adapter *)

(** [cursor.All(ctx, &results)]: every document is decoded; on an error
    the slice behind [results] is not assigned. *)
Definition cursorAll (env : Env) (docs : list Doc) : option (list Task) :=
  if dbFails env OpCursorAll then None else mapM (decodeTask env) docs.

(** [FindOne(ctx, bson.M{"_id": id}).Decode(&task)] *)
Definition findOneTask (env : Env) (w : World) (id : ObjectID) : option Task :=
  if dbFails env OpFindOne then None
  else tasks w !! id ≫= decodeTask env.

(** [Find(ctx, filter)]: the documents that satisfy [filter]. *)
Definition findDocs (w : World) (filter : Doc -> bool) : list Doc :=
  List.filter filter (map_to_list (tasks w)).*2.

(** [UpdateOne(ctx, bson.M{"_id": id}, bson.M{"$set": setDoc})]: every field
    of [setDoc] replaces the field of the stored document. *)
Definition updateOne (w : World) (id : ObjectID) (setDoc : Doc) : World :=
  setTasks w (alter (fun d => setDoc ∪ d) id (tasks w)).

(** ** The billing call *)

Definition hourlyRate : float := 100%float.

Inductive InvoiceError : Type :=
  | ErrMarshal
  | ErrSend
  | ErrStatus (status : nat)
  | ErrDecode.

(** The record [createInvoiceInBillingService] builds from the task it is
    given. *)
Definition invoiceFor (task : Task) : Billing :=
  {| BillingID := NilObjectID;
     UserID := AssignedTo task;
     TaskID := ID task;
     BillingHours := Hours task;
     Amount := PrimFloat.mul (Hours task) hourlyRate |}.

Definition postBilling (w : World) (b : Billing) : World :=
  {| tasks := tasks w; billingRequests := billingRequests w ++ [b] |}.

Definition createInvoiceInBillingService (env : Env) (task : Task) (w : World)
  : (InvoiceError + ObjectID) * World :=
  let billing := invoiceFor task in
  if negb (jsonMarshalBilling billing) then (inl ErrMarshal, w)
  else
    let w := postBilling w billing in
    match billingService env billing with
    | HttpFailed => (inl ErrSend, w)
    | HttpResponded status decoded =>
        if negb (Nat.eqb status StatusOK) then (inl (ErrStatus status), w)
        else match decoded with
             | None => (inl ErrDecode, w)
             | Some createdBilling => (inr (BillingID createdBilling), w)
             end
    end.

(** ** Creation and the overlap check *)

(** The filter of [createTask]: same assignee, [end_date > task.StartDate]
    and [start_date < task.EndDate].  A comparison of the store holds only
    between values of one type. *)
Definition overlapFilter (task : Task) (d : Doc) : bool :=
  match d !! "assigned_to", d !! "end_date", d !! "start_date" with
  | Some (VOid a), Some (VTime e), Some (VTime s) =>
      N.eqb a (AssignedTo task) && (StartDate task <? e) && (s <? EndDate task)
  | _, _, _ => false
  end.

Definition overlapWarning : string :=
  " Warning: This task overlaps with existing task(s).".

Definition withDescription (t : Task) (d : string) : Task :=
  mkTask (ID t) (Title t) d (AssignedTo t) (Status t) (Hours t)
         (StartDate t) (EndDate t) (InvoiceID t) (ParentTask t).

Definition withID (t : Task) (i : ObjectID) : Task :=
  mkTask i (Title t) (Description t) (AssignedTo t) (Status t) (Hours t)
         (StartDate t) (EndDate t) (InvoiceID t) (ParentTask t).

(** The slice [overlappingTasks] after [cursor.All], whose error the
    handler drops. *)
Definition overlappingTasks (env : Env) (w : World) (task : Task) : list Task :=
  default [] (cursorAll env (findDocs w (overlapFilter task))).

(** The task as [createTask] hands it to [InsertOne]. *)
Definition taskToInsert (env : Env) (w : World) (task : Task) : Task :=
  let task :=
    if Nat.ltb 0 (length (overlappingTasks env w task))
    then withDescription task (Description task ++ overlapWarning)
    else task in
  withID task (NewObjectID env).

(** [InsertOne] returns an error when the store does, and on an [_id] the
    collection already holds. *)
Definition createTask : Handler := fun env req w =>
  match bodyTask req with
  | None => (httpError "Invalid request body" StatusBadRequest, w)
  | Some task =>
      if dbFails env OpFind
      then (httpError "Database query error" StatusInternalServerError, w)
      else
        let task := taskToInsert env w task in
        if dbFails env OpInsertOne || bool_decide (is_Some (tasks w !! ID task))
        then (httpError "Failed to create task" StatusInternalServerError, w)
        else ({| code := StatusOK; body := BTask task |},
              setTasks w (<[ID task := encodeTask task]> (tasks w)))
  end.

(** ** Update: the patch and the status transition *)

Inductive KeyClass : Type := KCopied | KDate | KParent | KIgnored.

(** The [switch key] of [updateTask]. *)
Definition classifyKey (key : string) : KeyClass :=
  if String.eqb key "title" || String.eqb key "description"
     || String.eqb key "assigned_to" || String.eqb key "status"
     || String.eqb key "hours" then KCopied
  else if String.eqb key "start_date" || String.eqb key "end_date" then KDate
  else if String.eqb key "parent_task" then KParent
  else KIgnored.

(** The loop over [updates] that fills [updateDoc["$set"]]; a [return]
    inside the loop ends the handler with that response. *)
Fixpoint buildUpdateDoc (env : Env) (updates : list (string * Value))
    (setDoc : Doc) : Response + Doc :=
  match updates with
  | [] => inr setDoc
  | (key, value) :: rest =>
      match classifyKey key with
      | KCopied => buildUpdateDoc env rest (<[key := value]> setDoc)
      | KDate =>
          match value with
          | VStr dateString =>
              match parseRFC3339 env dateString with
              | None => inl (httpError "Invalid date format" StatusBadRequest)
              | Some parsedDate =>
                  buildUpdateDoc env rest (<[key := VTime parsedDate]> setDoc)
              end
          | _ => buildUpdateDoc env rest setDoc
          end
      | KParent =>
          match value with
          | VStr parentTaskIDString =>
              match ObjectIDFromHex parentTaskIDString with
              | None => inl (httpError "Invalid parent task ID" StatusBadRequest)
              | Some parentTaskID =>
                  buildUpdateDoc env rest
                    (<["parent_task" := VOid parentTaskID]> setDoc)
              end
          | _ => buildUpdateDoc env rest setDoc
          end
      | KIgnored => buildUpdateDoc env rest setDoc
      end
  end.

(** The guard of the invoice step. *)
Definition becomesDone (currentTask : Task) (updates : list (string * Value)) : bool :=
  negb (String.eqb (Status currentTask) "done") && isDone (mapIndex updates "status").

(** The last statement of [updateTask]: the write and its response. *)
Definition persistUpdate (env : Env) (w : World) (objectID : ObjectID) (setDoc : Doc)
  : Response * World :=
  if dbFails env OpUpdateOne
  then (httpError "Failed to update task" StatusInternalServerError, w)
  else ({| code := StatusNoContent; body := BEmpty |}, updateOne w objectID setDoc).

Definition updateTask : Handler := fun env req w =>
  if negb (String.eqb (method req) "PUT")
  then (httpError "Method not allowed" StatusMethodNotAllowed, w)
  else
    match ObjectIDFromHex (strDrop 14 (path req)) with
    | None => (httpError "Invalid task ID" StatusBadRequest, w)
    | Some objectID =>
        match bodyMap req with
        | None => (httpError "Invalid request body" StatusBadRequest, w)
        | Some updates =>
            match buildUpdateDoc env updates ∅ with
            | inl response => (response, w)
            | inr setDoc =>
                match findOneTask env w objectID with
                | None => (httpError "Task not found" StatusNotFound, w)
                | Some currentTask =>
                    if becomesDone currentTask updates
                    then
                      match createInvoiceInBillingService env currentTask w with
                      | (inl _, w) =>
                          (httpError "Failed to create invoice"
                             StatusInternalServerError, w)
                      | (inr invoiceID, w) =>
                          persistUpdate env w objectID
                            (<["invoice_id" := VOid invoiceID]> setDoc)
                      end
                    else persistUpdate env w objectID setDoc
                end
            end
        end
    end.

(** ** Removal and the read-only handlers *)

Definition removeTask : Handler := fun env req w =>
  if negb (String.eqb (method req) "DELETE")
  then (httpError "Method not allowed" StatusMethodNotAllowed, w)
  else
    match ObjectIDFromHex (strDrop 14 (path req)) with
    | None => (httpError "Invalid task ID" StatusBadRequest, w)
    | Some objectID =>
        if dbFails env OpDeleteOne
        then (httpError "Failed to remove task" StatusInternalServerError, w)
        else ({| code := StatusNoContent; body := BEmpty |},
              setTasks w (delete objectID (tasks w)))
    end.

(** On success the handler writes nothing: the server answers 200 with an
    empty body. *)
Definition removeAllTasks : Handler := fun env req w =>
  if negb (String.eqb (method req) "DELETE")
  then (httpError "Method not allowed" StatusMethodNotAllowed, w)
  else if dbFails env OpDeleteMany
  then (httpError "Failed to remove all tasks" StatusInternalServerError, w)
  else ({| code := StatusOK; body := BEmpty |}, setTasks w ∅).

Definition fieldIs (k : string) (id : ObjectID) (d : Doc) : bool :=
  match d !! k with
  | Some (VOid a) => N.eqb a id
  | _ => false
  end.

Definition getTask : Handler := fun env req w =>
  match ObjectIDFromHex (strDrop 11 (path req)) with
  | None => (httpError "Invalid task ID" StatusBadRequest, w)
  | Some objectID =>
      match findOneTask env w objectID with
      | None => (httpError "Task not found" StatusNotFound, w)
      | Some task =>
          let subtasks :=
            if dbFails env OpFind then []
            else default [] (cursorAll env (findDocs w (fieldIs "parent_task" objectID))) in
          ({| code := StatusOK; body := BTaskWithSubtasks task subtasks |}, w)
      end
  end.

Definition listTasks : Handler := fun env req w =>
  if negb (String.eqb (method req) "GET")
  then (httpError "Method not allowed" StatusMethodNotAllowed, w)
  else if dbFails env OpFind
  then (httpError "Failed to list tasks" StatusInternalServerError, w)
  else match cursorAll env (findDocs w (fun _ => true)) with
       | None => (httpError "Failed to decode tasks" StatusInternalServerError, w)
       | Some ts => ({| code := StatusOK; body := BTasks ts |}, w)
       end.

Definition listTasksByUser : Handler := fun env req w =>
  match ObjectIDFromHex (strDrop 18 (path req)) with
  | None => (httpError "Invalid user ID" StatusBadRequest, w)
  | Some objectID =>
      if dbFails env OpFind
      then (httpError "Failed to list tasks" StatusInternalServerError, w)
      else match cursorAll env (findDocs w (fieldIs "assigned_to" objectID)) with
           | None => (httpError "Failed to decode tasks" StatusInternalServerError, w)
           | Some ts => ({| code := StatusOK; body := BTasks ts |}, w)
           end
  end.

(** ** The authorization gate *)

Definition isAdmin (env : Env) (req : Request) : bool :=
  let userID :=
    if String.eqb (headerUserID req) EmptyString then queryUserID req
    else headerUserID req in
  match userService env userID with
  | HttpFailed => false
  | HttpResponded status decoded =>
      if negb (Nat.eqb status StatusOK) then false
      else match decoded with
           | None => false
           | Some role => String.eqb role "admin"
           end
  end.

Definition adminMiddleware (next : Handler) : Handler := fun env req w =>
  if negb (isAdmin env req)
  then (httpError "Unauthorized" StatusUnauthorized, w)
  else next env req w.

(** ** The route table *)

Section Routes.

(** [main] wraps the single-task removal in [authMiddleware], which no
    source file defines; the route table takes it as it comes. *)
Variable authMiddleware : Handler -> Handler.

(** [http.ServeMux], on a path in canonical form: a pattern that ends in
    a slash matches every path below it, any other pattern matches that
    path only; the root of a registered subtree without its slash is
    redirected to it. *)
Definition taskService : Handler := fun env req w =>
  let p := path req in
  if String.eqb p "/tasks/list" then listTasks env req w
  else if String.eqb p "/tasks/create" then createTask env req w
  else if String.eqb p "/tasks/removeAllTasks" then removeAllTasks env req w
  else if String.eqb p "/tasks/get" || String.eqb p "/tasks/update"
          || String.eqb p "/tasks/remove" || String.eqb p "/tasks/listByUser"
  then ({| code := StatusMovedPermanently; body := BEmpty |}, w)
  else if String.prefix "/tasks/get/" p then getTask env req w
  else if String.prefix "/tasks/update/" p then updateTask env req w
  else if String.prefix "/tasks/remove/" p
  then authMiddleware (adminMiddleware removeTask) env req w
  else if String.prefix "/tasks/listByUser/" p then listTasksByUser env req w
  else (httpError "404 page not found" StatusNotFound, w).

End Routes.

(** ** A concrete environment for the examples *)

(** A decoder for the documents [encodeTask] writes: a field that is
    present must hold a value of the field's type, a field that is absent
    decodes to the zero value. *)
Definition fieldString (d : Doc) (k : string) : option string :=
  match d !! k with
  | None => Some EmptyString
  | Some (VStr s) => Some s
  | Some _ => None
  end.

Definition fieldFloat (d : Doc) (k : string) : option float :=
  match d !! k with
  | None => Some 0%float
  | Some (VNum f) => Some f
  | Some _ => None
  end.

Definition zeroTime : Time := -62135596800000.

Definition fieldTime (d : Doc) (k : string) : option Time :=
  match d !! k with
  | None => Some zeroTime
  | Some (VTime t) => Some t
  | Some _ => None
  end.

Definition fieldOid (d : Doc) (k : string) : option ObjectID :=
  match d !! k with
  | None => Some NilObjectID
  | Some (VOid o) => Some o
  | Some _ => None
  end.

Definition fieldOidPtr (d : Doc) (k : string) : option (option ObjectID) :=
  match d !! k with
  | None => Some None
  | Some (VOid o) => Some (Some o)
  | Some _ => None
  end.

Definition strictDecodeTask (d : Doc) : option Task :=
  i ← fieldOid d "_id";
  ti ← fieldString d "title";
  de ← fieldString d "description";
  a ← fieldOid d "assigned_to";
  st ← fieldString d "status";
  h ← fieldFloat d "hours";
  s ← fieldTime d "start_date";
  e ← fieldTime d "end_date";
  inv ← fieldOid d "invoice_id";
  p ← fieldOidPtr d "parent_task";
  Some (mkTask i ti de a st h s e inv p).

(** Timestamps of the form [2006-01-02T15:04:05Z], one of the forms the
    RFC 3339 layout accepts. *)
Definition digitValue (c : ascii) : option Z :=
  let n := Z.of_N (N_of_ascii c) in
  if (48 <=? n) && (n <=? 57) then Some (n - 48) else None.

Fixpoint decimal (acc : Z) (s : string) : option Z :=
  match s with
  | EmptyString => Some acc
  | String c s' =>
      match digitValue c with
      | Some d => decimal (10 * acc + d) s'
      | None => None
      end
  end.

Definition isLeap (y : Z) : bool :=
  ((y mod 4 =? 0) && negb (y mod 100 =? 0)) || (y mod 400 =? 0).

Definition daysIn (y m : Z) : Z :=
  if m =? 2 then (if isLeap y then 29 else 28)
  else if (m =? 4) || (m =? 6) || (m =? 9) || (m =? 11) then 30 else 31.

Definition daysFromCivil (y m d : Z) : Z :=
  let y := if m <=? 2 then y - 1 else y in
  let era := y / 400 in
  let yoe := y - era * 400 in
  let mp := (m + 9) mod 12 in
  let doy := (153 * mp + 2) / 5 + d - 1 in
  let doe := yoe * 365 + yoe / 4 - yoe / 100 + doy in
  era * 146097 + doe - 719468.

Definition parseRFC3339Zulu (s : string) : option Time :=
  if negb (Nat.eqb (String.length s) 20) then None
  else if negb (String.eqb (substring 4 1 s) "-" && String.eqb (substring 7 1 s) "-"
                && String.eqb (substring 10 1 s) "T" && String.eqb (substring 13 1 s) ":"
                && String.eqb (substring 16 1 s) ":" && String.eqb (substring 19 1 s) "Z")
  then None
  else
    y ← decimal 0 (substring 0 4 s);
    mo ← decimal 0 (substring 5 2 s);
    d ← decimal 0 (substring 8 2 s);
    h ← decimal 0 (substring 11 2 s);
    mi ← decimal 0 (substring 14 2 s);
    se ← decimal 0 (substring 17 2 s);
    if (1 <=? mo) && (mo <=? 12) && (1 <=? d) && (d <=? daysIn y mo)
       && (h <? 24) && (mi <? 60) && (se <? 60)
    then Some ((((daysFromCivil y mo d * 24 + h) * 60 + mi) * 60 + se) * 1000)
    else None.

(** What [createBilling] of the billing service answers: the record it
    received, under the identifier it assigned. *)
Definition billingCreated (newID : ObjectID) (b : Billing) : HttpResult Billing :=
  HttpResponded StatusOK
    (Some (mkBilling newID (UserID b) (TaskID b) (BillingHours b) (Amount b))).

Definition noDbError (op : DbOp) : bool := false.

Definition sampleEnv (newID : ObjectID) (billing : Billing -> HttpResult Billing)
    (users : string -> HttpResult string) : Env :=
  {| parseRFC3339 := parseRFC3339Zulu;
     decodeTask := strictDecodeTask;
     NewObjectID := newID;
     dbFails := noDbError;
     billingService := billing;
     userService := users |}.

Definition userU1 : ObjectID := 161%N.
Definition taskT1 : ObjectID := 178%N.
Definition jan (day : Z) : Time := 1704067200000 + (day - 1) * 86400000.

Definition reportTask : Task :=
  mkTask taskT1 "report" "quarterly figures" userU1 "open" 2.5%float
         (jan 1) (jan 5) NilObjectID None.

Definition oneTask (t : Task) : World :=
  {| tasks := {[ ID t := encodeTask t ]}; billingRequests := [] |}.

Definition putRequest (p : string) (patch : list (string * Value)) : Request :=
  mkRequest "PUT" p EmptyString EmptyString None (Some patch).

Definition postTask (t : Task) : Request :=
  mkRequest "POST" "/tasks/create" EmptyString EmptyString (Some t) None.

Definition updateT1 : string := "/tasks/update/0000000000000000000000b2".

Definition billingDown (b : Billing) : HttpResult Billing := HttpFailed.
Definition usersDown (userID : string) : HttpResult string := HttpFailed.
Definition usersAllMembers (userID : string) : HttpResult string :=
  HttpResponded StatusOK (Some "member").

Definition envBillingDown : Env := sampleEnv 900%N billingDown usersDown.
Definition envBillingUp : Env := sampleEnv 900%N (billingCreated 77%N) usersDown.
Definition envMembers : Env := sampleEnv 900%N (billingCreated 77%N) usersAllMembers.

Definition withStatus (t : Task) (st : string) : Task :=
  mkTask (ID t) (Title t) (Description t) (AssignedTo t) st (Hours t)
         (StartDate t) (EndDate t) (InvoiceID t) (ParentTask t).

Definition withHours (t : Task) (h : float) : Task :=
  mkTask (ID t) (Title t) (Description t) (AssignedTo t) (Status t) h
         (StartDate t) (EndDate t) (InvoiceID t) (ParentTask t).

Definition withInvoiceID (t : Task) (i : ObjectID) : Task :=
  mkTask (ID t) (Title t) (Description t) (AssignedTo t) (Status t) (Hours t)
         (StartDate t) (EndDate t) i (ParentTask t).

Definition withInterval (t : Task) (s e : Time) : Task :=
  mkTask (ID t) (Title t) (Description t) (AssignedTo t) (Status t) (Hours t)
         s e (InvoiceID t) (ParentTask t).

Definition doneTask : Task := withStatus reportTask "done".
Definition hugeTask : Task := withHours reportTask 0x1p1020%float.
Definition instantTask : Task := withInterval reportTask (jan 3) (jan 3).

Definition markDone : list (string * Value) :=
  [("status", VStr "done"); ("hours", VNum 8%float)].

Definition deleteAll (userID : string) : Request :=
  mkRequest "DELETE" "/tasks/removeAllTasks" userID EmptyString None None.

Definition emptyWorld : World := {| tasks := ∅; billingRequests := [] |}.
Definition invoicedTask : Task := withInvoiceID reportTask 55%N.
Definition secondTask : Task := withInterval reportTask (jan 3) (jan 6).
Definition thirdTask : Task := withInterval reportTask (jan 5) (jan 7).
Definition updateNew : string := "/tasks/update/000000000000000000000384".

(** The keys the [switch] of [updateTask] has a case for. *)
Definition recognizedKeys : list string :=
  ["title"; "description"; "assigned_to"; "status"; "hours";
   "start_date"; "end_date"; "parent_task"].

Definition isRecognized (kv : string * Value) : bool :=
  bool_decide (kv.1 ∈ recognizedKeys).

(** How the billing call can fail, by the [return] that reports it. *)
Inductive IssuanceFails (env : Env) (task : Task) : InvoiceError -> Prop :=
  | FailsMarshal :
      jsonMarshalBilling (invoiceFor task) = false ->
      IssuanceFails env task ErrMarshal
  | FailsSend :
      jsonMarshalBilling (invoiceFor task) = true ->
      billingService env (invoiceFor task) = HttpFailed ->
      IssuanceFails env task ErrSend
  | FailsStatus status decoded :
      jsonMarshalBilling (invoiceFor task) = true ->
      billingService env (invoiceFor task) = HttpResponded status decoded ->
      status <> StatusOK ->
      IssuanceFails env task (ErrStatus status)
  | FailsDecode :
      jsonMarshalBilling (invoiceFor task) = true ->
      billingService env (invoiceFor task) = HttpResponded StatusOK None ->
      IssuanceFails env task ErrDecode.

(** ** One iteration of the patch loop *)

Inductive PatchStep : Type :=
  | StepReturn (response : Response)
  | StepSet (key : string) (value : Value)
  | StepSkip.

(** What the body of the loop of [updateTask] does with one entry of the
    map: it ends the handler, sets one field of [$set], or does nothing. *)
Definition patchStep (env : Env) (kv : string * Value) : PatchStep :=
  match classifyKey kv.1 with
  | KCopied => StepSet kv.1 kv.2
  | KDate =>
      match kv.2 with
      | VStr dateString =>
          match parseRFC3339 env dateString with
          | None => StepReturn (httpError "Invalid date format" StatusBadRequest)
          | Some parsedDate => StepSet kv.1 (VTime parsedDate)
          end
      | _ => StepSkip
      end
  | KParent =>
      match kv.2 with
      | VStr parentTaskIDString =>
          match ObjectIDFromHex parentTaskIDString with
          | None => StepReturn (httpError "Invalid parent task ID" StatusBadRequest)
          | Some parentTaskID => StepSet "parent_task" (VOid parentTaskID)
          end
      | _ => StepSkip
      end
  | KIgnored => StepSkip
  end.

(** Two outcomes of the loop that differ at most in the text of the
    error. *)
Definition samePatch (r1 r2 : Response + Doc) : Prop :=
  match r1, r2 with
  | inl _, inl _ => True
  | inr d1, inr d2 => d1 = d2
  | _, _ => False
  end.

(** The handlers registered by [main], the gate applied where [main]
    applies [adminMiddleware]. *)
Definition taskHandlers : list Handler :=
  [listTasks; createTask; getTask; updateTask; adminMiddleware removeTask;
   removeAllTasks; listTasksByUser].

(** ** Bootstrap: [ensureDatabaseAndCollection] *)

(** The server as the bootstrap sees it: the collections of each database. *)
Abbreviation Server := (gmap string (gset string)).

Inductive AdminOp : Type :=
  | OpListDatabaseNames | OpListCollectionNames | OpCreateCollection.

Definition collectionsOf (srv : Server) (db : string) : gset string :=
  default ∅ (srv !! db).

(** [Database(db).CreateCollection(ctx, coll)]: the server refuses to
    create a collection that exists. *)
Definition createCollection (fails : AdminOp -> bool) (db coll : string)
    (srv : Server) : option Server :=
  if fails OpCreateCollection then None
  else if decide (coll ∈ collectionsOf srv db) then None
  else Some (<[db := {[coll]} ∪ collectionsOf srv db]> srv).

(** [true] is the [nil] error.  The two services run the same function on
    their own names. *)
Definition ensureDatabaseAndCollection (fails : AdminOp -> bool)
    (dbName collectionName : string) (srv : Server) : bool * Server :=
  if fails OpListDatabaseNames then (false, srv)
  else
    let databases := elements (dom srv) in
    let dbExists := existsb (String.eqb dbName) databases in
    if negb dbExists then
      match createCollection fails dbName collectionName srv with
      | None => (false, srv)
      | Some srv' => (true, srv')
      end
    else if fails OpListCollectionNames then (false, srv)
    else
      let collections := elements (collectionsOf srv dbName) in
      let collectionExists := existsb (String.eqb collectionName) collections in
      if negb collectionExists then
        match createCollection fails dbName collectionName srv with
        | None => (false, srv)
        | Some srv' => (true, srv')
        end
      else (true, srv).

Definition ensureTaskCollection (fails : AdminOp -> bool) : Server -> bool * Server :=
  ensureDatabaseAndCollection fails "taskmanagement" "tasks".

Definition ensureBillingCollection (fails : AdminOp -> bool) : Server -> bool * Server :=
  ensureDatabaseAndCollection fails "billing" "billings".

Definition noAdminError (op : AdminOp) : bool := false.

(** ** The billing service *)

Module BillingService.

Inductive Body : Type :=
  | BEmpty
  | BText (msg : string)
  | BBilling (b : Billing)
  | BBillings (bs : list Billing).

Record Response : Type := mkResponse { code : nat; body : Body }.

Definition httpError (msg : string) (c : nat) : Response :=
  {| code := c; body := BText msg |}.

(** The parts of the request the handlers and [isAdmin] read; [bodyBilling]
    is what [encoding/json] makes of the body as a [Billing], [None] a
    decoding error. *)
Record Request : Type := mkRequest {
  method : string;
  path : string;
  headerUserID : string;
  queryUserID : string;
  bodyBilling : option Billing
}.

Record Env : Type := mkEnv {
  decodeBilling : Doc -> option Billing;
  NewObjectID : ObjectID;
  dbFails : DbOp -> bool;
  userService : string -> HttpResult string
}.

(** The collection [billing.billings], keyed by [_id]. *)
Abbreviation World := (gmap ObjectID Doc).

Definition Handler : Type := Env -> Request -> World -> Response * World.

(** The driver's encoding of a [Billing] by its bson tags. *)
Definition encodeBilling (b : Billing) : Doc :=
  <["_id" := VOid (BillingID b)]>
  (<["user_id" := VOid (UserID b)]>
  (<["task_id" := VOid (TaskID b)]>
  (<["hours" := VNum (BillingHours b)]>
  (<["amount" := VNum (Amount b)]> ∅)))).

Definition withBillingID (b : Billing) (i : ObjectID) : Billing :=
  mkBilling i (UserID b) (TaskID b) (BillingHours b) (Amount b).

Definition createBilling : Handler := fun env req w =>
  if negb (String.eqb (method req) "POST")
  then (httpError "Method not allowed" StatusMethodNotAllowed, w)
  else
    match bodyBilling req with
    | None => (httpError "Invalid request body" StatusBadRequest, w)
    | Some billing =>
        let billing := withBillingID billing (NewObjectID env) in
        if dbFails env OpInsertOne || bool_decide (is_Some (w !! BillingID billing))
        then (httpError "Failed to create billing" StatusInternalServerError, w)
        else ({| code := StatusOK; body := BBilling billing |},
              <[BillingID billing := encodeBilling billing]> w)
    end.

Definition getBilling : Handler := fun env req w =>
  if negb (String.eqb (method req) "GET")
  then (httpError "Method not allowed" StatusMethodNotAllowed, w)
  else
    match ObjectIDFromHex (strDrop 14 (path req)) with
    | None => (httpError "Invalid billing ID" StatusBadRequest, w)
    | Some objectID =>
        match (if dbFails env OpFindOne then None
               else w !! objectID ≫= decodeBilling env) with
        | None => (httpError "Billing not found" StatusNotFound, w)
        | Some billing => ({| code := StatusOK; body := BBilling billing |}, w)
        end
    end.

(** The [$set] document of [updateBilling]. *)
Definition billingUpdate (billing : Billing) : Doc :=
  <["user_id" := VOid (UserID billing)]>
  (<["task_id" := VOid (TaskID billing)]>
  (<["hours" := VNum (BillingHours billing)]>
  (<["amount" := VNum (Amount billing)]> ∅))).

Definition updateBilling : Handler := fun env req w =>
  if negb (String.eqb (method req) "PUT")
  then (httpError "Method not allowed" StatusMethodNotAllowed, w)
  else
    match ObjectIDFromHex (strDrop 17 (path req)) with
    | None => (httpError "Invalid billing ID" StatusBadRequest, w)
    | Some objectID =>
        match bodyBilling req with
        | None => (httpError "Invalid request body" StatusBadRequest, w)
        | Some billing =>
            if dbFails env OpUpdateOne
            then (httpError "Failed to update billing" StatusInternalServerError, w)
            else ({| code := StatusNoContent; body := BEmpty |},
                  alter (fun d => billingUpdate billing ∪ d) objectID w)
        end
    end.

Definition removeBilling : Handler := fun env req w =>
  if negb (String.eqb (method req) "DELETE")
  then (httpError "Method not allowed" StatusMethodNotAllowed, w)
  else
    match ObjectIDFromHex (strDrop 17 (path req)) with
    | None => (httpError "Invalid billing ID" StatusBadRequest, w)
    | Some objectID =>
        if dbFails env OpDeleteOne
        then (httpError "Failed to remove billing" StatusInternalServerError, w)
        else ({| code := StatusNoContent; body := BEmpty |}, delete objectID w)
    end.

Definition listBillings : Handler := fun env req w =>
  if negb (String.eqb (method req) "GET")
  then (httpError "Method not allowed" StatusMethodNotAllowed, w)
  else if dbFails env OpFind
  then (httpError "Failed to list billings" StatusInternalServerError, w)
  else match (if dbFails env OpCursorAll then None
              else mapM (decodeBilling env) (map_to_list w).*2) with
       | None => (httpError "Failed to decode billings" StatusInternalServerError, w)
       | Some bs => ({| code := StatusOK; body := BBillings bs |}, w)
       end.

Definition removeAllBillings : Handler := fun env req w =>
  if negb (String.eqb (method req) "DELETE")
  then (httpError "Method not allowed" StatusMethodNotAllowed, w)
  else if dbFails env OpDeleteMany
  then (httpError "Failed to remove all billings" StatusInternalServerError, w)
  else ({| code := StatusNoContent; body := BEmpty |}, ∅).

(** [isAdmin] and [adminMiddleware] as the billing service defines them;
    its [main] registers every handler without them. *)
Definition isAdmin (env : Env) (req : Request) : bool :=
  let userID :=
    if String.eqb (headerUserID req) EmptyString then queryUserID req
    else headerUserID req in
  match userService env userID with
  | HttpFailed => false
  | HttpResponded status decoded =>
      if negb (Nat.eqb status StatusOK) then false
      else match decoded with
           | None => false
           | Some role => String.eqb role "admin"
           end
  end.

Definition adminMiddleware (next : Handler) : Handler := fun env req w =>
  if negb (isAdmin env req)
  then (httpError "Unauthorized" StatusUnauthorized, w)
  else next env req w.

(** The route table of the billing service. *)
Definition billingService : Handler := fun env req w =>
  let p := path req in
  if String.eqb p "/billings/list" then listBillings env req w
  else if String.eqb p "/billings/create" then createBilling env req w
  else if String.eqb p "/billings/removeAllBillings" then removeAllBillings env req w
  else if String.eqb p "/billings/get" || String.eqb p "/billings/update"
          || String.eqb p "/billings/remove"
  then ({| code := StatusMovedPermanently; body := BEmpty |}, w)
  else if String.prefix "/billings/get/" p then getBilling env req w
  else if String.prefix "/billings/update/" p then updateBilling env req w
  else if String.prefix "/billings/remove/" p then removeBilling env req w
  else (httpError "404 page not found" StatusNotFound, w).

(** Every document of the collection is the encoding of a record stored
    under its own id. *)
Definition wellFormed (w : World) : Prop :=
  forall id d, w !! id = Some d -> exists b, d = encodeBilling b /\ BillingID b = id.

End BillingService.

(** A decoder for the documents [encodeBilling] writes. *)
Definition strictDecodeBilling (d : Doc) : option Billing :=
  match d !! "_id", d !! "user_id", d !! "task_id", d !! "hours", d !! "amount" with
  | Some (VOid i), Some (VOid u), Some (VOid t), Some (VNum h), Some (VNum a) =>
      Some (mkBilling i u t h a)
  | _, _, _, _, _ => None
  end.

Definition billingEnv (newID : ObjectID) (users : string -> HttpResult string)
  : BillingService.Env :=
  {| BillingService.decodeBilling := strictDecodeBilling;
     BillingService.NewObjectID := newID;
     BillingService.dbFails := noDbError;
     BillingService.userService := users |}.

Definition sampleBilling : Billing :=
  mkBilling NilObjectID userU1 taskT1 2.5%float 250%float.

Definition billingRequest (m p : string) (b : option Billing) : BillingService.Request :=
  BillingService.mkRequest m p EmptyString EmptyString b.

(** ** The movie lookup service *)

Module MovieInfo.

(** The messages of the generated package [movieapi], by the getters the
    server calls: [GetTitle], [GetYear] (an [int32]), [GetDirector],
    [GetCast]. *)
Record MovieData : Type := mkMovieData {
  Title : string;
  Year : Z;
  Director : string;
  Cast : list string
}.

Record MovieReply : Type := mkMovieReply {
  ReplyYear : Z;
  ReplyDirector : string;
  ReplyCast : list string
}.

(** [moviedb]: title to year, director and cast. *)
Abbreviation MovieDb := (gmap string (list string)).

Definition moviedb : MovieDb :=
  {[ "Pulp fiction" :=
       ["1994"; "Quentin Tarantino";
        "John Travolta,Samuel Jackson,Uma Thurman,Bruce Willis"] ]}.

Definition digitChar (d : Z) : ascii := ascii_of_N (Z.to_N (48 + d)).

(** The digits of [u], least significant first, put in front of [acc]. *)
Fixpoint formatBits (fuel : nat) (u : Z) (acc : string) : string :=
  match fuel with
  | O => acc
  | S fuel' =>
      let acc' := String (digitChar (u mod 10)) acc in
      if u <? 10 then acc' else formatBits fuel' (u / 10) acc'
  end.

(** [strconv.Itoa] on a 64-bit [int]: at most 19 digits. *)
Definition Itoa (i : Z) : string :=
  if i <? 0 then String "-" (formatBits 19 (- i) EmptyString)
  else formatBits 19 i EmptyString.

Definition minInt : Z := - 2 ^ 63.
Definition maxInt : Z := 2 ^ 63 - 1.

(** [strconv.Atoi]: an optional sign, then one decimal digit or more, and
    a value an [int] holds; [None] is the error. *)
Definition Atoi (s : string) : option Z :=
  let '(negative, digits) :=
    match s with
    | String "-" rest => (true, rest)
    | String "+" rest => (false, rest)
    | _ => (false, s)
    end in
  if String.eqb digits EmptyString then None
  else
    match decimal 0 digits with
    | None => None
    | Some v =>
        let n := if negative then - v else v in
        if (minInt <=? n) && (n <=? maxInt) then Some n else None
    end.

(** The conversion [int32(year)]. *)
Definition int32 (z : Z) : Z := (z + 2 ^ 31) mod 2 ^ 32 - 2 ^ 31.

(** [strings.Join(elems, sep)] *)
Fixpoint Join (elems : list string) (sep : string) : string :=
  match elems with
  | [] => EmptyString
  | x :: rest =>
      match rest with
      | [] => x
      | _ :: _ => x ++ sep ++ Join rest sep
      end
  end.

(** [strings.Split(s, sep)] for a separator of one character. *)
Fixpoint Split (s : string) (sep : ascii) : list string :=
  match s with
  | EmptyString => [EmptyString]
  | String c rest =>
      if Ascii.eqb c sep then EmptyString :: Split rest sep
      else match Split rest sep with
           | [] => [String c EmptyString]
           | piece :: pieces => String c piece :: pieces
           end
  end.

Definition SetMovieInfo (data : MovieData) (db : MovieDb) : string * MovieDb :=
  let title := Title data in
  let year := Itoa (Year data) in
  let director := Director data in
  let cast := Join (Cast data) "," in
  ("Success", <[title := [year; director; cast]]> db).

(** [None] is the run-time panic of an index out of range. *)
Definition GetMovieInfo (title : string) (db : MovieDb) : option MovieReply :=
  match db !! title with
  | None => Some (mkMovieReply 0 EmptyString [])
  | Some val =>
      v0 ← val !! 0%nat;
      let year := match Atoi v0 with
                  | None => -1
                  | Some year => int32 year
                  end in
      v1 ← val !! 1%nat;
      v2 ← val !! 2%nat;
      Some (mkMovieReply year v1 (Split v2 ","))
  end.


Fixpoint contains (c : ascii) (s : string) : bool :=
  match s with
  | EmptyString => false
  | String c' rest => Ascii.eqb c' c || contains c rest
  end.

End MovieInfo.

(** ** Requests and worlds for the further examples *)

Definition writeFails (op : DbOp) : bool :=
  match op with
  | OpUpdateOne => true
  | _ => false
  end.

Definition envWriteFails : Env :=
  {| parseRFC3339 := parseRFC3339Zulu;
     decodeTask := strictDecodeTask;
     NewObjectID := 900%N;
     dbFails := writeFails;
     billingService := billingCreated 77%N;
     userService := usersDown |}.

Definition usersAdminRoot (userID : string) : HttpResult string :=
  if String.eqb userID "root" then HttpResponded StatusOK (Some "admin")
  else HttpResponded StatusOK (Some "member").

Definition envRoot : Env := sampleEnv 900%N (billingCreated 77%N) usersAdminRoot.

Definition taskRequest (m p userID : string) : Request :=
  mkRequest m p userID EmptyString None None.

Definition removeT1 : string := "/tasks/remove/0000000000000000000000b2".
Definition removeNew : string := "/tasks/remove/000000000000000000000384".
Definition getNew : string := "/tasks/get/000000000000000000000384".
Definition listU1 : string := "/tasks/listByUser/0000000000000000000000a1".

Definition renamePatch : list (string * Value) :=
  [("title", VStr "final report"); ("end_date", VStr "2024-01-09T00:00:00Z")].

Definition renamePatchSwapped : list (string * Value) :=
  [("end_date", VStr "2024-01-09T00:00:00Z"); ("title", VStr "final report")].

(** The task of the examples after a patch gave it a text for hours. *)
Definition brokenWorld : World :=
  (updateTask envBillingUp (putRequest updateT1 [("hours", VStr "plenty")])
     (oneTask reportTask)).2.

Definition pulpSequel : MovieInfo.MovieData :=
  MovieInfo.mkMovieData "Jackie Brown" 1997 "Quentin Tarantino"
    ["Pam Grier"; "Samuel Jackson"; "Robert De Niro"].

(** * Properties *)

(** ** The billing call *)

Lemma isDone_spec v : isDone v = true <-> v = VStr "done".
Proof.
  destruct v; simpl; try (split; [discriminate | congruence]).
  rewrite String.eqb_eq. split; congruence.
Qed.

Lemma becomesDone_spec currentTask updates :
  becomesDone currentTask updates = true <->
  Status currentTask <> "done" /\ mapIndex updates "status" = VStr "done".
Proof.
  unfold becomesDone.
  rewrite andb_true_iff, negb_true_iff, isDone_spec, String.eqb_neq. tauto.
Qed.

Lemma createInvoice_tasks env task w :
  tasks (createInvoiceInBillingService env task w).2 = tasks w.
Proof.
  unfold createInvoiceInBillingService.
  destruct (jsonMarshalBilling _); simpl; [|done].
  destruct (billingService _ _) as [|status [created|]]; simpl;
    try destruct (Nat.eqb status StatusOK); done.
Qed.

Lemma createInvoice_requests env task w :
  billingRequests (createInvoiceInBillingService env task w).2 =
  (billingRequests w ++
    (if jsonMarshalBilling (invoiceFor task) then [invoiceFor task] else []))%list.
Proof.
  unfold createInvoiceInBillingService.
  destruct (jsonMarshalBilling _); simpl; [|by rewrite app_nil_r].
  destruct (billingService _ _) as [|status [created|]]; simpl;
    try destruct (Nat.eqb status StatusOK); done.
Qed.

Lemma createInvoice_fails env task w e :
  IssuanceFails env task e ->
  (createInvoiceInBillingService env task w).1 = inl e.
Proof.
  unfold createInvoiceInBillingService.
  destruct 1 as [Hm|Hm Hs|status decoded Hm Hs Hne|Hm Hs]; rewrite Hm; simpl;
    [done|by rewrite Hs|..]; rewrite Hs.
  - apply Nat.eqb_neq in Hne. by rewrite Hne.
  - done.
Qed.

Lemma createInvoice_succeeds env task w created :
  jsonMarshalBilling (invoiceFor task) = true ->
  billingService env (invoiceFor task) = HttpResponded StatusOK (Some created) ->
  createInvoiceInBillingService env task w =
    (inr (BillingID created), postBilling w (invoiceFor task)).
Proof.
  intros Hm Hs. unfold createInvoiceInBillingService. by rewrite Hm, Hs.
Qed.

Lemma createInvoice_inr env task w invoiceID :
  (createInvoiceInBillingService env task w).1 = inr invoiceID ->
  exists created,
    billingService env (invoiceFor task) = HttpResponded StatusOK (Some created)
    /\ invoiceID = BillingID created.
Proof.
  unfold createInvoiceInBillingService.
  destruct (jsonMarshalBilling _); simpl; [|done].
  destruct (billingService _ _) as [|status [created|]]; simpl; [done|..];
    destruct (Nat.eqb_spec status StatusOK) as [->|]; simpl; try done.
  intros [= <-]. by exists created.
Qed.

(** ** The write of [updateTask] *)

Lemma persistUpdate_requests env w objectID setDoc :
  billingRequests (persistUpdate env w objectID setDoc).2 = billingRequests w.
Proof. unfold persistUpdate. by destruct (dbFails env OpUpdateOne). Qed.

Lemma persistUpdate_lookup env w objectID setDoc id :
  tasks (persistUpdate env w objectID setDoc).2 !! id =
  if dbFails env OpUpdateOne then tasks w !! id
  else if decide (objectID = id) then (fun d => setDoc ∪ d) <$> tasks w !! id
  else tasks w !! id.
Proof.
  unfold persistUpdate. destruct (dbFails env OpUpdateOne); simpl; [done|].
  rewrite lookup_alter. by case_decide; subst.
Qed.

Lemma updateOne_empty w objectID : updateOne w objectID ∅ = w.
Proof.
  destruct w as [ts rs]. unfold updateOne, setTasks. simpl. f_equal.
  apply map_eq. intros id. rewrite lookup_alter. case_decide; [subst|done].
  destruct (ts !! id) as [d|]; simpl; [|done]. by rewrite (left_id_L ∅ (∪)).
Qed.

(** ** An update that reaches the guard of the invoice step *)

Section UpdateReachesTheGuard.

Variables (env : Env) (req : Request) (w : World).
Variables (objectID : ObjectID) (updates : list (string * Value)).
Variables (setDoc : Doc) (currentTask : Task).

Hypothesis Hmethod : method req = "PUT".
Hypothesis Hid : ObjectIDFromHex (strDrop 14 (path req)) = Some objectID.
Hypothesis Hbody : bodyMap req = Some updates.
Hypothesis Hpatch : buildUpdateDoc env updates ∅ = inr setDoc.
Hypothesis Hload : findOneTask env w objectID = Some currentTask.

Lemma updateTask_at_guard :
  updateTask env req w =
  if becomesDone currentTask updates
  then match createInvoiceInBillingService env currentTask w with
       | (inl _, w1) =>
           (httpError "Failed to create invoice" StatusInternalServerError, w1)
       | (inr invoiceID, w1) =>
           persistUpdate env w1 objectID (<["invoice_id" := VOid invoiceID]> setDoc)
       end
  else persistUpdate env w objectID setDoc.
Proof.
  unfold updateTask.
  by rewrite Hmethod, Hid, Hbody, Hpatch, Hload.
Qed.

Lemma loaded_document : exists d, tasks w !! objectID = Some d.
Proof.
  revert Hload. unfold findOneTask.
  destruct (dbFails env OpFindOne); [done|].
  destruct (tasks w !! objectID) as [d|]; [by exists d|done].
Qed.

(** C1: when the patch moves a task that is not done to done and the
    billing call fails (the record cannot be encoded, the request cannot be
    sent, the answer is not 200, or its body does not decode), the handler
    answers 500 and the task collection is what it was. *)
Theorem invoice_failure_aborts_update e :
  Status currentTask <> "done" ->
  mapIndex updates "status" = VStr "done" ->
  IssuanceFails env currentTask e ->
  (updateTask env req w).1 =
    httpError "Failed to create invoice" StatusInternalServerError
  /\ tasks (updateTask env req w).2 = tasks w.
Proof.
  intros Hst Hdone Hfail.
  rewrite updateTask_at_guard.
  rewrite (proj2 (becomesDone_spec _ _) (conj Hst Hdone)).
  pose proof (createInvoice_fails env currentTask w e Hfail) as He.
  pose proof (createInvoice_tasks env currentTask w) as Ht.
  destruct (createInvoiceInBillingService env currentTask w) as [[e'|i] w1];
    simpl in *; [done|discriminate].
Qed.

(** C2, as amended: on a patch that moves a task that is not done to done,
    the handler builds one billing record from the task it loaded (assignee,
    task id, persisted hours, amount = hours times 100) and hands it to the
    billing service once, provided the record can be encoded; otherwise
    nothing is sent and nothing is written.  When the service answers 200
    with the created record, its id is written as [invoice_id] in the same
    [$set] as the fields of the patch. *)
Theorem transition_issues_one_invoice :
  Status currentTask <> "done" ->
  mapIndex updates "status" = VStr "done" ->
  let billing :=
    mkBilling NilObjectID (AssignedTo currentTask) (ID currentTask)
              (Hours currentTask) (PrimFloat.mul (Hours currentTask) hourlyRate) in
  let result := updateTask env req w in
  billingRequests result.2 =
    (billingRequests w ++ (if jsonMarshalBilling billing then [billing] else []))%list
  /\ (jsonMarshalBilling billing = false ->
      result = (httpError "Failed to create invoice" StatusInternalServerError, w))
  /\ (forall created,
        jsonMarshalBilling billing = true ->
        billingService env billing = HttpResponded StatusOK (Some created) ->
        dbFails env OpUpdateOne = false ->
        result.1 = {| code := StatusNoContent; body := BEmpty |}
        /\ tasks result.2 =
             alter (fun d => <["invoice_id" := VOid (BillingID created)]> setDoc ∪ d)
                   objectID (tasks w)
        /\ exists d, tasks result.2 !! objectID = Some d
             /\ d !! "invoice_id" = Some (VOid (BillingID created))).
Proof.
  intros Hst Hdone billing result. subst result.
  change billing with (invoiceFor currentTask).
  rewrite updateTask_at_guard.
  rewrite (proj2 (becomesDone_spec _ _) (conj Hst Hdone)).
  split; [|split].
  - pose proof (createInvoice_requests env currentTask w) as Hr.
    destruct (createInvoiceInBillingService env currentTask w) as [[e|i] w1];
      simpl in *; [done|].
    by rewrite persistUpdate_requests.
  - intros Hm. unfold createInvoiceInBillingService. by rewrite Hm.
  - intros created Hm Hs Hdb.
    rewrite (createInvoice_succeeds _ _ _ created Hm Hs).
    unfold persistUpdate. rewrite Hdb. simpl. split; [done|]. split; [done|].
    destruct loaded_document as [d Hd].
    exists (<["invoice_id" := VOid (BillingID created)]> setDoc ∪ d).
    rewrite lookup_alter. rewrite decide_True by done. rewrite Hd. simpl.
    split; [done|].
    apply lookup_union_Some_l, lookup_insert_eq.
Qed.

(** A patch on a task that is already done is written as it is. *)
Lemma done_task_plain_write :
  Status currentTask = "done" ->
  updateTask env req w = persistUpdate env w objectID setDoc.
Proof.
  intros Hst. rewrite updateTask_at_guard. unfold becomesDone.
  by rewrite Hst.
Qed.

End UpdateReachesTheGuard.

(** ** The patch *)

(** Case analysis on one comparison of the switch key. *)
Ltac case_key :=
  match goal with
  | |- context [String.eqb ?k ?c] =>
      is_var k; destruct (String.eqb_spec k c) as [->|?]; simpl
  end.

Lemma classifyKey_ignored key :
  classifyKey key = KIgnored <-> key ∉ recognizedKeys.
Proof.
  unfold classifyKey, recognizedKeys.
  repeat (case_key;
          [split; [discriminate | intros H; exfalso; apply H; repeat constructor]|]).
  split; [intros _ | done].
  rewrite !not_elem_of_cons. repeat split; try done. apply not_elem_of_nil.
Qed.

Lemma classifyKey_parent key : classifyKey key = KParent -> key = "parent_task".
Proof.
  unfold classifyKey. repeat (case_key; try done).
Qed.

Lemma buildUpdateDoc_error env updates acc response :
  buildUpdateDoc env updates acc = inl response ->
  exists msg, response = httpError msg StatusBadRequest.
Proof.
  revert acc. induction updates as [|[key value] rest IH]; intros acc; simpl; [done|].
  destruct (classifyKey key); [by apply IH| | |by apply IH].
  - destruct value; try by apply IH.
    destruct (parseRFC3339 env s); [by apply IH|].
    intros [= <-]. by eexists.
  - destruct value; try by apply IH.
    destruct (ObjectIDFromHex s); [by apply IH|].
    intros [= <-]. by eexists.
Qed.

(** A key outside the patch, or without a case in the switch, keeps the
    value it had in the document under construction. *)
Lemma buildUpdateDoc_frame env updates acc setDoc k :
  buildUpdateDoc env updates acc = inr setDoc ->
  k ∉ updates.*1 \/ classifyKey k = KIgnored ->
  setDoc !! k = acc !! k.
Proof.
  revert acc. induction updates as [|[key value] rest IH]; intros acc; simpl.
  { by intros [= ->]. }
  intros Hb Hk.
  assert (Hrest : k ∉ rest.*1 \/ classifyKey k = KIgnored).
  { destruct Hk as [Hk|Hk]; [left|by right].
    rewrite not_elem_of_cons in Hk. tauto. }
  assert (Hne : classifyKey key <> KIgnored -> key <> k).
  { intros Hc ->. destruct Hk as [Hk|Hk]; [|done].
    rewrite not_elem_of_cons in Hk. tauto. }
  destruct (classifyKey key) eqn:Hc.
  - rewrite (IH _ Hb Hrest). apply lookup_insert_ne. by apply Hne.
  - destruct value; try by apply (IH _ Hb Hrest).
    destruct (parseRFC3339 env s); [|done].
    rewrite (IH _ Hb Hrest). apply lookup_insert_ne. by apply Hne.
  - destruct value; try by apply (IH _ Hb Hrest).
    destruct (ObjectIDFromHex s); [|done].
    rewrite (IH _ Hb Hrest). apply lookup_insert_ne.
    rewrite <- (classifyKey_parent key Hc). by apply Hne.
  - by apply (IH _ Hb Hrest).
Qed.

Lemma buildUpdateDoc_copied env updates acc setDoc k v :
  NoDup updates.*1 ->
  (k, v) ∈ updates ->
  classifyKey k = KCopied ->
  buildUpdateDoc env updates acc = inr setDoc ->
  setDoc !! k = Some v.
Proof.
  revert acc. induction updates as [|[key value] rest IH]; intros acc Hnd Hin Hc; simpl.
  { by apply elem_of_nil in Hin. }
  apply NoDup_cons in Hnd as [Hfresh Hnd].
  apply elem_of_cons in Hin as [[= <- <-]|Hin].
  - rewrite Hc. intros Hb.
    rewrite (buildUpdateDoc_frame _ _ _ _ k Hb (or_introl Hfresh)).
    apply lookup_insert_eq.
  - destruct (classifyKey key); [by apply IH| | |by apply IH].
    + destruct value; try by apply IH.
      destruct (parseRFC3339 env s); [by apply IH|done].
    + destruct value; try by apply IH.
      destruct (ObjectIDFromHex s); [by apply IH|done].
Qed.

Lemma buildUpdateDoc_ignored env updates acc :
  Forall (fun kv => classifyKey kv.1 = KIgnored) updates ->
  buildUpdateDoc env updates acc = inr acc.
Proof.
  induction 1 as [|[key value] rest Hk _ IH]; simpl in *; [done|].
  by rewrite Hk.
Qed.

Lemma buildUpdateDoc_drops_unrecognized env updates acc :
  buildUpdateDoc env updates acc =
  buildUpdateDoc env (List.filter isRecognized updates) acc.
Proof.
  revert acc. induction updates as [|[key value] rest IH]; intros acc; [done|].
  simpl. unfold isRecognized at 1. simpl.
  destruct (classifyKey key) eqn:Hc.
  4: { apply classifyKey_ignored in Hc. by rewrite bool_decide_eq_false_2. }
  all: rewrite bool_decide_eq_true_2
    by (destruct (decide (key ∈ recognizedKeys)) as [|Hn]; [done|];
        apply classifyKey_ignored in Hn; congruence).
  all: simpl; rewrite Hc; try done.
  - destruct value; try done. by destruct (parseRFC3339 env s).
  - destruct value; try done. by destruct (ObjectIDFromHex s).
Qed.

Lemma buildUpdateDoc_bad_date env updates acc key s :
  (key, VStr s) ∈ updates ->
  classifyKey key = KDate ->
  parseRFC3339 env s = None ->
  exists msg, buildUpdateDoc env updates acc = inl (httpError msg StatusBadRequest).
Proof.
  intros Hin Hc Hparse. revert acc.
  induction updates as [|[key' value] rest IH]; intros acc; simpl.
  { by apply elem_of_nil in Hin. }
  apply elem_of_cons in Hin as [[= <- <-]|Hin].
  { rewrite Hc, Hparse. by eexists. }
  destruct (classifyKey key'); [by apply IH| | |by apply IH].
  - destruct value; try by apply IH.
    destruct (parseRFC3339 env s0); [by apply IH|by eexists].
  - destruct value; try by apply IH.
    destruct (ObjectIDFromHex s0); [by apply IH|by eexists].
Qed.

(** The loop consults nothing but the parser. *)
Lemma buildUpdateDoc_parser env env' updates acc :
  parseRFC3339 env' = parseRFC3339 env ->
  buildUpdateDoc env' updates acc = buildUpdateDoc env updates acc.
Proof.
  intros Hparse. revert acc.
  induction updates as [|[key value] rest IH]; intros acc; simpl; [done|].
  rewrite Hparse.
  destruct (classifyKey key); try done.
  - destruct value; try done. by destruct (parseRFC3339 env s).
  - destruct value; try done. by destruct (ObjectIDFromHex s).
Qed.

Lemma mapIndex_absent updates k : k ∉ updates.*1 -> mapIndex updates k = VNull.
Proof.
  induction updates as [|[key value] rest IH]; simpl; [done|].
  intros Hk. rewrite not_elem_of_cons in Hk. destruct Hk as [Hne Hk].
  destruct (String.eqb_spec key k) as [->|_]; [done|].
  by apply IH.
Qed.

(** ** What an update can do to the world *)

Lemma updateTask_cases env req w :
  (code (updateTask env req w).1 <> StatusNoContent
   /\ tasks (updateTask env req w).2 = tasks w)
  \/ exists objectID updates setDoc currentTask written,
       ObjectIDFromHex (strDrop 14 (path req)) = Some objectID
       /\ bodyMap req = Some updates
       /\ buildUpdateDoc env updates ∅ = inr setDoc
       /\ findOneTask env w objectID = Some currentTask
       /\ (updateTask env req w).1 = {| code := StatusNoContent; body := BEmpty |}
       /\ tasks (updateTask env req w).2 =
            alter (fun d => written ∪ d) objectID (tasks w)
       /\ (becomesDone currentTask updates = false /\ written = setDoc
           \/ becomesDone currentTask updates = true
              /\ exists created,
                   billingService env (invoiceFor currentTask) =
                     HttpResponded StatusOK (Some created)
                   /\ written = <["invoice_id" := VOid (BillingID created)]> setDoc).
Proof.
  unfold updateTask.
  destruct (negb (method req =? "PUT")%string); [by left|].
  destruct (ObjectIDFromHex _) as [objectID|] eqn:Hid; [|by left].
  destruct (bodyMap req) as [updates|] eqn:Hbody; [|by left].
  destruct (buildUpdateDoc env updates ∅) as [response|setDoc] eqn:Hpatch.
  { left. apply buildUpdateDoc_error in Hpatch as [msg ->]. done. }
  destruct (findOneTask env w objectID) as [currentTask|] eqn:Hload; [|by left].
  destruct (becomesDone currentTask updates) eqn:Hguard.
  - pose proof (createInvoice_tasks env currentTask w) as Ht.
    pose proof (createInvoice_inr env currentTask w) as Hi.
    destruct (createInvoiceInBillingService env currentTask w) as [[e|i] w1];
      simpl in *; [by left|].
    destruct (Hi i eq_refl) as (created & Hs & ->).
    unfold persistUpdate. destruct (dbFails env OpUpdateOne); simpl; [by left|].
    right. exists objectID, updates, setDoc, currentTask,
      (<["invoice_id" := VOid (BillingID created)]> setDoc).
    split_and!; try done; [by rewrite Ht|].
    right. split; [done|]. by exists created.
  - unfold persistUpdate. destruct (dbFails env OpUpdateOne); simpl; [by left|].
    right. exists objectID, updates, setDoc, currentTask, setDoc.
    split_and!; try done. by left.
Qed.

Lemma updateTask_requests env req w :
  exists sent,
    billingRequests (updateTask env req w).2 = (billingRequests w ++ sent)%list
    /\ (length sent <= 1)%nat
    /\ (sent <> [] ->
        exists objectID updates currentTask,
          ObjectIDFromHex (strDrop 14 (path req)) = Some objectID
          /\ bodyMap req = Some updates
          /\ findOneTask env w objectID = Some currentTask
          /\ Status currentTask <> "done"
          /\ mapIndex updates "status" = VStr "done").
Proof.
  assert (Hnone : forall w', billingRequests w' = billingRequests w ->
    exists sent, billingRequests w' = (billingRequests w ++ sent)%list
      /\ (length sent <= 1)%nat /\ (sent <> [] -> False)).
  { intros w' ->. exists []. rewrite app_nil_r. repeat split; [simpl; lia|done]. }
  assert (Hweaken : forall (w' : World) (P : Prop),
    (exists sent, billingRequests w' = (billingRequests w ++ sent)%list
      /\ (length sent <= 1)%nat /\ (sent <> [] -> False)) ->
    exists sent, billingRequests w' = (billingRequests w ++ sent)%list
      /\ (length sent <= 1)%nat /\ (sent <> [] -> P)).
  { intros w' P (sent & ? & ? & Hf). exists sent. repeat split; [done..|].
    intros Hne. by destruct (Hf Hne). }
  unfold updateTask.
  destruct (negb (method req =? "PUT")%string); [by apply Hweaken, Hnone|].
  destruct (ObjectIDFromHex _) as [objectID|] eqn:Hid; [|by apply Hweaken, Hnone].
  destruct (bodyMap req) as [updates|] eqn:Hbody; [|by apply Hweaken, Hnone].
  destruct (buildUpdateDoc env updates ∅) as [response|setDoc];
    [by apply Hweaken, Hnone|].
  destruct (findOneTask env w objectID) as [currentTask|] eqn:Hload;
    [|by apply Hweaken, Hnone].
  destruct (becomesDone currentTask updates) eqn:Hguard.
  - apply becomesDone_spec in Hguard as [Hst Hdone].
    pose proof (createInvoice_requests env currentTask w) as Hr.
    exists (if jsonMarshalBilling (invoiceFor currentTask)
            then [invoiceFor currentTask] else []).
    split; [|split].
    + destruct (createInvoiceInBillingService env currentTask w) as [[e|i] w1];
        simpl in *; [done|]. by rewrite persistUpdate_requests.
    + destruct (jsonMarshalBilling _); simpl; lia.
    + intros _. by exists objectID, updates, currentTask.
  - apply Hweaken, Hnone. apply persistUpdate_requests.
Qed.

(** C3: a patch on a task whose persisted status is done is a plain write
    of the fields of the patch and hands nothing to the billing service;
    and whatever the request, one run of the handler hands at most one
    record to the billing service, and hands one only when the task it
    loaded is not done and the patch sets status to done. *)
Theorem repeated_done_issues_nothing env req w :
  (forall objectID updates setDoc currentTask,
     method req = "PUT" ->
     ObjectIDFromHex (strDrop 14 (path req)) = Some objectID ->
     bodyMap req = Some updates ->
     buildUpdateDoc env updates ∅ = inr setDoc ->
     findOneTask env w objectID = Some currentTask ->
     Status currentTask = "done" ->
     updateTask env req w = persistUpdate env w objectID setDoc
     /\ billingRequests (updateTask env req w).2 = billingRequests w
     /\ (dbFails env OpUpdateOne = false ->
         tasks (updateTask env req w).2 =
           alter (fun d => setDoc ∪ d) objectID (tasks w)))
  /\ exists sent,
       billingRequests (updateTask env req w).2 = (billingRequests w ++ sent)%list
       /\ (length sent <= 1)%nat
       /\ (sent <> [] ->
           exists objectID updates currentTask,
             ObjectIDFromHex (strDrop 14 (path req)) = Some objectID
             /\ bodyMap req = Some updates
             /\ findOneTask env w objectID = Some currentTask
             /\ Status currentTask <> "done"
             /\ mapIndex updates "status" = VStr "done").
Proof.
  split; [|apply updateTask_requests].
  intros objectID updates setDoc currentTask Hm Hid Hbody Hpatch Hload Hst.
  rewrite (done_task_plain_write env req w objectID updates setDoc currentTask)
    by done.
  split; [done|]. split; [apply persistUpdate_requests|].
  intros Hdb. unfold persistUpdate. by rewrite Hdb.
Qed.

(** C10: keys outside the recognized set are dropped by the loop over the
    patch; a patch with no recognized key (the empty patch among them)
    builds the empty [$set] document, leaves the world as it was and, when
    the task is found and the write returns no error, is answered 204. *)
Theorem unrecognized_keys_are_dropped env req w updates :
  bodyMap req = Some updates ->
  Forall (fun kv => kv.1 ∉ recognizedKeys) updates ->
  buildUpdateDoc env updates ∅ = inr ∅
  /\ (updateTask env req w).2 = w
  /\ (forall objectID currentTask,
        method req = "PUT" ->
        ObjectIDFromHex (strDrop 14 (path req)) = Some objectID ->
        findOneTask env w objectID = Some currentTask ->
        dbFails env OpUpdateOne = false ->
        (updateTask env req w).1 = {| code := StatusNoContent; body := BEmpty |})
  /\ (forall patch acc,
        buildUpdateDoc env patch acc =
        buildUpdateDoc env (List.filter isRecognized patch) acc).
Proof.
  intros Hbody Hkeys.
  assert (Hpatch : buildUpdateDoc env updates ∅ = inr ∅).
  { apply buildUpdateDoc_ignored. eapply Forall_impl; [exact Hkeys|].
    intros kv. apply classifyKey_ignored. }
  assert (Hstatus : forall currentTask, becomesDone currentTask updates = false).
  { intros currentTask. unfold becomesDone. rewrite mapIndex_absent.
    - apply andb_false_r.
    - intros Hin. apply list_elem_of_fmap in Hin as (kv & Hk & Hin).
      rewrite Forall_forall in Hkeys. apply (Hkeys kv Hin). rewrite <- Hk.
      unfold recognizedKeys. repeat constructor. }
  assert (Hwrite : forall objectID,
    (persistUpdate env w objectID ∅).2 = w).
  { intros objectID. unfold persistUpdate.
    destruct (dbFails env OpUpdateOne); simpl; [done|apply updateOne_empty]. }
  split_and!; [done| | |apply buildUpdateDoc_drops_unrecognized].
  - unfold updateTask.
    destruct (negb (method req =? "PUT")%string); [done|].
    destruct (ObjectIDFromHex _) as [objectID|]; [|done].
    rewrite Hbody, Hpatch.
    destruct (findOneTask env w objectID) as [currentTask|]; [|done].
    by rewrite Hstatus.
  - intros objectID currentTask Hm Hid Hload Hdb.
    rewrite (updateTask_at_guard env req w objectID updates ∅ currentTask)
      by done.
    rewrite Hstatus. unfold persistUpdate. by rewrite Hdb.
Qed.

(** C8, as amended: the value a patch gives for [hours] is copied into the
    [$set] document as it is, whatever it is; the loop never returns on it,
    and an update that is answered 204 has stored it. *)
Theorem hours_written_verbatim env req w updates v :
  bodyMap req = Some updates ->
  NoDup updates.*1 ->
  ("hours", v) ∈ updates ->
  (forall acc setDoc,
     buildUpdateDoc env updates acc = inr setDoc -> setDoc !! "hours" = Some v)
  /\ (forall rest acc,
        buildUpdateDoc env (("hours", v) :: rest) acc =
        buildUpdateDoc env rest (<["hours" := v]> acc))
  /\ (code (updateTask env req w).1 = StatusNoContent ->
      exists objectID d,
        ObjectIDFromHex (strDrop 14 (path req)) = Some objectID
        /\ tasks (updateTask env req w).2 !! objectID = Some d
        /\ d !! "hours" = Some v).
Proof.
  intros Hbody Hnd Hin.
  assert (Hcopy : forall acc setDoc,
    buildUpdateDoc env updates acc = inr setDoc -> setDoc !! "hours" = Some v).
  { intros acc setDoc. by apply buildUpdateDoc_copied. }
  split_and!; [done|done|].
  intros Hcode.
  destruct (updateTask_cases env req w)
    as [[Hne _]|(objectID & updates' & setDoc & currentTask & written
                 & Hid & Hbody' & Hpatch & Hload & _ & Htasks & Hwritten)];
    [done|].
  rewrite Hbody in Hbody'. injection Hbody' as <-.
  destruct (loaded_document env w objectID currentTask Hload) as [d Hd].
  exists objectID, (written ∪ d). split; [done|]. split.
  - rewrite Htasks, lookup_alter, decide_True by done. by rewrite Hd.
  - apply lookup_union_Some_l.
    destruct Hwritten as [[_ ->]|[_ (created & _ & ->)]]; [by eapply Hcopy|].
    rewrite lookup_insert_ne by done. by eapply Hcopy.
Qed.

(** C9, as amended: a [start_date] or [end_date] whose value is a string
    that the RFC 3339 layout does not parse makes the handler answer 400
    with the world untouched, whatever the world is and whatever the store,
    the billing service and the user service would answer; a value that is
    not a string is skipped by the loop. *)
Theorem unparseable_date_is_rejected env req updates key s :
  method req = "PUT" ->
  is_Some (ObjectIDFromHex (strDrop 14 (path req))) ->
  bodyMap req = Some updates ->
  key = "start_date" \/ key = "end_date" ->
  (key, VStr s) ∈ updates ->
  parseRFC3339 env s = None ->
  (exists msg, forall env' w,
     parseRFC3339 env' = parseRFC3339 env ->
     updateTask env' req w = (httpError msg StatusBadRequest, w))
  /\ (forall value rest acc,
        (forall dateString, value <> VStr dateString) ->
        buildUpdateDoc env ((key, value) :: rest) acc =
        buildUpdateDoc env rest acc).
Proof.
  intros Hm [objectID Hid] Hbody Hkey Hin Hparse.
  assert (Hc : classifyKey key = KDate) by (by destruct Hkey as [->| ->]).
  split.
  - destruct (buildUpdateDoc_bad_date env updates ∅ key s Hin Hc Hparse)
      as [msg Hpatch].
    exists msg. intros env' w Henv. unfold updateTask.
    by rewrite Hm, Hid, Hbody, (buildUpdateDoc_parser env env') , Hpatch.
  - intros value rest acc Hv. simpl. rewrite Hc.
    destruct value; try done. by destruct (Hv s0).
Qed.

(** ** Creation *)

Lemma encodeTask_invoice_id t :
  encodeTask t !! "invoice_id" =
  if N.eqb (InvoiceID t) NilObjectID then None else Some (VOid (InvoiceID t)).
Proof.
  unfold encodeTask.
  destruct (N.eqb (InvoiceID t) NilObjectID), (ParentTask t); reflexivity.
Qed.

Lemma encodeTask_interval t :
  encodeTask t !! "assigned_to" = Some (VOid (AssignedTo t))
  /\ encodeTask t !! "start_date" = Some (VTime (StartDate t))
  /\ encodeTask t !! "end_date" = Some (VTime (EndDate t)).
Proof.
  unfold encodeTask.
  destruct (N.eqb (InvoiceID t) NilObjectID), (ParentTask t); done.
Qed.

Lemma taskToInsert_fields env w task :
  exists description,
    taskToInsert env w task =
      withID (withDescription task description) (NewObjectID env)
    /\ description =
         if Nat.ltb 0 (length (overlappingTasks env w task))
         then Description task ++ overlapWarning else Description task.
Proof.
  unfold taskToInsert. by destruct (Nat.ltb 0 _); eexists.
Qed.

Lemma findDocs_elem w filter d :
  d ∈ findDocs w filter <-> filter d = true /\ exists id, tasks w !! id = Some d.
Proof.
  unfold findDocs. rewrite list_elem_of_In, filter_In, <- list_elem_of_In.
  rewrite list_elem_of_fmap. split.
  - intros [([id d'] & -> & Hin) Hf]. split; [done|].
    exists id. by apply elem_of_map_to_list.
  - intros [Hf [id Hid]]. split; [|done].
    exists (id, d). split; [done|]. by apply elem_of_map_to_list.
Qed.

Lemma createTask_stores env req w task :
  bodyTask req = Some task ->
  dbFails env OpFind = false ->
  dbFails env OpInsertOne = false ->
  tasks w !! NewObjectID env = None ->
  createTask env req w =
    ({| code := StatusOK; body := BTask (taskToInsert env w task) |},
     setTasks w (<[NewObjectID env := encodeTask (taskToInsert env w task)]> (tasks w))).
Proof.
  intros Hbody Hfind Hins Hfresh. unfold createTask.
  rewrite Hbody, Hfind, Hins.
  destruct (taskToInsert_fields env w task) as (description & -> & _). simpl.
  rewrite bool_decide_eq_false_2; [done|].
  rewrite Hfresh. by intros [? ?].
Qed.

(** C4, as amended: for a candidate and a stored document of the same
    assignee with interval [s, e), the filter of [createTask] selects the
    document exactly when [e] is after the candidate's start and [s] before
    the candidate's end.  For two intervals that are not empty this is
    [max] of the starts before [min] of the ends; intervals that only
    touch are not selected; an empty interval is selected exactly when its
    instant lies strictly inside the other interval. *)
Theorem overlap_filter_spec (task : Task) (d : Doc) (s e : Time) :
  d !! "assigned_to" = Some (VOid (AssignedTo task)) ->
  d !! "start_date" = Some (VTime s) ->
  d !! "end_date" = Some (VTime e) ->
  (overlapFilter task d = true <-> StartDate task < e /\ s < EndDate task)
  /\ (StartDate task < EndDate task -> s < e ->
      (overlapFilter task d = true <->
       Z.max (StartDate task) s < Z.min (EndDate task) e))
  /\ (EndDate task = s -> overlapFilter task d = false)
  /\ (e = StartDate task -> overlapFilter task d = false)
  /\ (StartDate task = EndDate task ->
      (overlapFilter task d = true <-> s < StartDate task < e))
  /\ (s = e ->
      (overlapFilter task d = true <-> StartDate task < s < EndDate task)).
Proof.
  intros Ha Hs He.
  assert (Hspec : overlapFilter task d = true <->
                  StartDate task < e /\ s < EndDate task).
  { unfold overlapFilter. rewrite Ha, He, Hs, N.eqb_refl. simpl.
    rewrite andb_true_iff, !Z.ltb_lt. tauto. }
  split_and!; [done|..].
  - intros. rewrite Hspec. lia.
  - intros. apply not_true_is_false. rewrite Hspec. lia.
  - intros. apply not_true_is_false. rewrite Hspec. lia.
  - intros. rewrite Hspec. lia.
  - intros. rewrite Hspec. lia.
Qed.

(** C5, as amended: an update leaves the [invoice_id] of every stored
    document as it was, except that it writes the id the billing service
    returned when the loaded task is not done, the patch sets status to
    done and the billing call succeeds; an update never removes an
    [invoice_id] or a document; a creation leaves the stored documents as
    they were and stores the new one with the [invoice_id] of the request
    body when that is not the zero id, and without one otherwise. *)
Theorem invoice_id_provenance env req w :
  (forall id d',
     tasks (updateTask env req w).2 !! id = Some d' ->
     exists d, tasks w !! id = Some d
       /\ (d' !! "invoice_id" = d !! "invoice_id"
           \/ exists updates currentTask created,
                ObjectIDFromHex (strDrop 14 (path req)) = Some id
                /\ bodyMap req = Some updates
                /\ findOneTask env w id = Some currentTask
                /\ Status currentTask <> "done"
                /\ mapIndex updates "status" = VStr "done"
                /\ billingService env (invoiceFor currentTask) =
                     HttpResponded StatusOK (Some created)
                /\ d' !! "invoice_id" = Some (VOid (BillingID created))))
  /\ (forall id d,
        tasks w !! id = Some d ->
        exists d', tasks (updateTask env req w).2 !! id = Some d'
          /\ (is_Some (d !! "invoice_id") -> is_Some (d' !! "invoice_id")))
  /\ (forall id d,
        tasks w !! id = Some d -> tasks (createTask env req w).2 !! id = Some d)
  /\ (forall id d',
        tasks (createTask env req w).2 !! id = Some d' ->
        tasks w !! id = Some d'
        \/ tasks w !! id = None
           /\ exists task,
                bodyTask req = Some task
                /\ id = NewObjectID env
                /\ d' !! "invoice_id" =
                     if N.eqb (InvoiceID task) NilObjectID then None
                     else Some (VOid (InvoiceID task))).
Proof.
  split_and!.
  - intros id d' Hd'.
    destruct (updateTask_cases env req w)
      as [[_ Htasks]|(objectID & updates & setDoc & currentTask & written
                      & Hid & Hbody & Hpatch & Hload & _ & Htasks & Hwritten)];
      rewrite Htasks in Hd'; [exists d'; by split; [|left]|].
    rewrite lookup_alter in Hd'. case_decide as Heq; [subst id|].
    2: { exists d'. by split; [|left]. }
    destruct (tasks w !! objectID) as [d|] eqn:Hd; [|done].
    injection Hd' as <-. exists d. split; [done|].
    destruct Hwritten as [[_ ->]|[Hguard (created & Hs & ->)]].
    + left. apply lookup_union_r.
      rewrite (buildUpdateDoc_frame env updates ∅ setDoc "invoice_id" Hpatch);
        [done|by right].
    + right. apply becomesDone_spec in Hguard as [Hst Hdone].
      exists updates, currentTask, created. split_and!; try done.
      apply lookup_union_Some_l, lookup_insert_eq.
  - intros id d Hd.
    destruct (updateTask_cases env req w)
      as [[_ Htasks]|(objectID & updates & setDoc & currentTask & written
                      & _ & _ & _ & _ & _ & Htasks & _)];
      rewrite Htasks; [by exists d|].
    rewrite lookup_alter. case_decide as Heq; [subst id|by exists d].
    rewrite Hd. simpl. eexists. split; [done|].
    intros [v Hv]. destruct (written !! "invoice_id") as [v'|] eqn:Hw.
    + exists v'. by apply lookup_union_Some_l.
    + exists v. by rewrite lookup_union_r.
  - intros id d Hd. unfold createTask.
    destruct (bodyTask req) as [task|]; [|done].
    destruct (dbFails env OpFind); [done|].
    destruct (_ || _) eqn:Hins; [done|]. simpl.
    apply orb_false_iff in Hins as [_ Hfresh].
    apply bool_decide_eq_false in Hfresh.
    rewrite lookup_insert_ne; [done|].
    intros <-. apply Hfresh. by exists d.
  - intros id d'. unfold createTask.
    destruct (bodyTask req) as [task|]; [|by left].
    destruct (dbFails env OpFind); [by left|].
    destruct (_ || _) eqn:Hins; [by left|]. simpl.
    apply orb_false_iff in Hins as [_ Hfresh].
    apply bool_decide_eq_false in Hfresh.
    destruct (taskToInsert_fields env w task) as (description & Hstored & _).
    rewrite Hstored in *. simpl in *.
    rewrite lookup_insert. case_decide as Heq; [subst id|by left].
    intros [= <-]. right. split.
    + destruct (tasks w !! NewObjectID env) eqn:Hl; [|done].
      destruct Hfresh. by eexists.
    + exists task. split_and!; try done. by rewrite encodeTask_invoice_id.
Qed.

(** C6, as amended: a creation request whose body decodes, on a store that
    answers, is answered 200 and stored under a fresh id, with or without
    overlap; the description is what the request gave, followed by the
    warning sentence when a stored document of the same assignee overlaps
    the candidate and [cursor.All] returns the overlapping documents, each
    decoded as a task, and followed by nothing when no document overlaps.
    When [cursor.All] returns an error, the handler goes on with the empty
    slice. *)
Theorem overlap_never_blocks_creation env req w task :
  bodyTask req = Some task ->
  dbFails env OpFind = false ->
  dbFails env OpInsertOne = false ->
  tasks w !! NewObjectID env = None ->
  exists description,
    let stored := withID (withDescription task description) (NewObjectID env) in
    createTask env req w =
      ({| code := StatusOK; body := BTask stored |},
       setTasks w (<[NewObjectID env := encodeTask stored]> (tasks w)))
    /\ (description = Description task
        \/ description = Description task ++ overlapWarning)
    /\ (dbFails env OpCursorAll = false ->
        (forall id d,
           tasks w !! id = Some d -> overlapFilter task d = true ->
           is_Some (decodeTask env d)) ->
        (exists id d, tasks w !! id = Some d /\ overlapFilter task d = true) ->
        description = Description task ++ overlapWarning)
    /\ ((forall id d, tasks w !! id = Some d -> overlapFilter task d = false) ->
        description = Description task)
    /\ (dbFails env OpCursorAll = true
        \/ (exists id d,
              tasks w !! id = Some d /\ overlapFilter task d = true
              /\ decodeTask env d = None) ->
        description = Description task).
Proof.
  intros Hbody Hfind Hins Hfresh.
  destruct (taskToInsert_fields env w task) as (description & Hstored & Hdesc).
  exists description. simpl. split_and!.
  - rewrite <- Hstored. by apply createTask_stores.
  - rewrite Hdesc. destruct (Nat.ltb 0 _); [by right|by left].
  - intros Hcursor Hdecode (id & d & Hd & Hf). rewrite Hdesc.
    assert (Hin : d ∈ findDocs w (overlapFilter task)).
    { apply findDocs_elem. split; [done|by exists id]. }
    assert (Hall : is_Some (mapM (decodeTask env) (findDocs w (overlapFilter task)))).
    { apply mapM_is_Some, Forall_forall. intros d' Hd'.
      apply findDocs_elem in Hd' as [Hf' [id' Hid']]. by apply (Hdecode id'). }
    destruct Hall as [ts Hall].
    unfold overlappingTasks, cursorAll. rewrite Hcursor, Hall. simpl.
    apply length_mapM in Hall.
    destruct (findDocs w (overlapFilter task)); [by apply elem_of_nil in Hin|].
    by destruct ts.
  - intros Hnone. rewrite Hdesc.
    assert (Hempty : findDocs w (overlapFilter task) = []).
    { destruct (findDocs w (overlapFilter task)) as [|d ds] eqn:Hdocs; [done|].
      assert (Hin : d ∈ findDocs w (overlapFilter task))
        by (rewrite Hdocs; apply list_elem_of_here).
      apply findDocs_elem in Hin as [Hf [id Hd]].
      by rewrite (Hnone id d Hd) in Hf. }
    unfold overlappingTasks, cursorAll. rewrite Hempty.
    by destruct (dbFails env OpCursorAll).
  - intros Hfails. rewrite Hdesc.
    assert (Hnone : cursorAll env (findDocs w (overlapFilter task)) = None).
    { unfold cursorAll. destruct Hfails as [->|(id & d & Hd & Hf & Hdec)]; [done|].
      destruct (dbFails env OpCursorAll); [done|].
      apply mapM_None, Exists_exists. exists d. split; [|done].
      apply findDocs_elem. split; [done|by exists id]. }
    unfold overlappingTasks. by rewrite Hnone.
Qed.

(** ** The authorization gate and the routes *)

Lemma isAdmin_true env req :
  isAdmin env req = true ->
  exists userID,
    userService env userID = HttpResponded StatusOK (Some "admin")
    /\ userID = (if String.eqb (headerUserID req) EmptyString
                 then queryUserID req else headerUserID req).
Proof.
  unfold isAdmin. intros H. eexists. split; [|done].
  destruct (userService env _) as [|status decoded]; [done|].
  destruct (Nat.eqb_spec status StatusOK) as [->|]; simpl in H; [|done].
  destruct decoded as [role|]; [|done].
  apply String.eqb_eq in H. by subst.
Qed.

(** The gate is closed unless the user service answered 200 with the role
    admin: the wrapped handler does not run and the world is untouched. *)
Lemma adminMiddleware_fail_closed next env req w :
  isAdmin env req = false ->
  adminMiddleware next env req w =
    (httpError "Unauthorized" StatusUnauthorized, w).
Proof. intros H. unfold adminMiddleware. by rewrite H. Qed.

Lemma adminMiddleware_admin next env req w :
  isAdmin env req = true -> adminMiddleware next env req w = next env req w.
Proof. intros H. unfold adminMiddleware. by rewrite H. Qed.

Lemma prefix_app a p :
  String.prefix a p = true -> exists rest, p = (a ++ rest)%string.
Proof.
  revert p. induction a as [|c a IH]; intros p; [by exists p|].
  destruct p as [|c' p]; simpl; [done|].
  destruct (ascii_dec c c') as [<-|]; [|done].
  intros Hp. destruct (IH p Hp) as [rest ->]. by exists rest.
Qed.

Lemma remove_route_is_gated authMiddleware env req w :
  String.prefix "/tasks/remove/" (path req) = true ->
  taskService authMiddleware env req w =
    authMiddleware (adminMiddleware removeTask) env req w.
Proof.
  intros Hp. unfold taskService.
  destruct (prefix_app _ _ Hp) as [rest ->]. simpl. by destruct rest.
Qed.

Lemma removeAll_route_is_open authMiddleware env req w :
  path req = "/tasks/removeAllTasks" ->
  taskService authMiddleware env req w = removeAllTasks env req w.
Proof. intros Hp. unfold taskService. by rewrite Hp. Qed.

(** C7, at the failing input: a DELETE of [/tasks/removeAllTasks] from a
    caller the user service knows as a member, not an admin, reaches
    [removeAllTasks], which empties the collection and is answered 200;
    the route is registered without the gate. *)
Theorem removeAllTasks_runs_without_admin authMiddleware :
  isAdmin envMembers (deleteAll "u1") = false
  /\ tasks (oneTask reportTask) !! taskT1 = Some (encodeTask reportTask)
  /\ taskService authMiddleware envMembers (deleteAll "u1") (oneTask reportTask) =
       ({| code := StatusOK; body := BEmpty |},
        {| tasks := ∅; billingRequests := [] |}).
Proof. split_and!; reflexivity. Qed.

(** ** The handlers on concrete requests *)

(** The example of the specification: a second task of the same assignee
    from January 3 to January 6 overlaps the task from January 1 to
    January 5 and gets the warning; a third from January 5 to January 7
    only touches it and gets none. *)
Example second_task_is_warned :
  Description (taskToInsert envBillingUp (oneTask reportTask) secondTask) =
  "quarterly figures Warning: This task overlaps with existing task(s).".
Proof. reflexivity. Qed.

Example third_task_is_not_warned :
  Description (taskToInsert envBillingUp (oneTask reportTask) thirdTask) =
  "quarterly figures".
Proof. reflexivity. Qed.

Example transition_stores_invoice :
  exists d,
    tasks (updateTask envBillingUp (putRequest updateT1 markDone)
             (oneTask reportTask)).2 !! taskT1 = Some d
    /\ d !! "status" = Some (VStr "done")
    /\ d !! "hours" = Some (VNum 8%float)
    /\ d !! "invoice_id" = Some (VOid 77%N)
    /\ d !! "title" = Some (VStr "report").
Proof. eexists. split_and!; reflexivity. Qed.

Example transition_bills_persisted_hours :
  billingRequests (updateTask envBillingUp (putRequest updateT1 markDone)
                     (oneTask reportTask)).2 =
  [mkBilling NilObjectID userU1 taskT1 2.5%float 250%float].
Proof. reflexivity. Qed.

Lemma invoice_failure_aborts_update_witness :
  (updateTask envBillingDown (putRequest updateT1 markDone) (oneTask reportTask)).1 =
    httpError "Failed to create invoice" StatusInternalServerError
  /\ tasks (updateTask envBillingDown (putRequest updateT1 markDone)
              (oneTask reportTask)).2 = tasks (oneTask reportTask).
Proof.
  apply (invoice_failure_aborts_update envBillingDown
           (putRequest updateT1 markDone) (oneTask reportTask) taskT1 markDone
           (<["hours" := VNum 8%float]> (<["status" := VStr "done"]> ∅))
           reportTask eq_refl eq_refl eq_refl eq_refl eq_refl ErrSend).
  - vm_compute. discriminate.
  - reflexivity.
  - apply FailsSend; reflexivity.
Defined.

(** C2 fails as stated: a task of 2^1020 hours is not done and the patch
    sets status to done, but 100 times its hours is not a finite number, the
    record cannot be encoded, and no billing record leaves the handler. *)
Lemma huge_hours_send_nothing :
  findOneTask envBillingUp (oneTask hugeTask) taskT1 = Some hugeTask
  /\ Status hugeTask <> "done"
  /\ mapIndex markDone "status" = VStr "done"
  /\ jsonFloat (Hours hugeTask) = true
  /\ billingRequests (updateTask envBillingUp (putRequest updateT1 markDone)
                        (oneTask hugeTask)).2 = []
  /\ updateTask envBillingUp (putRequest updateT1 markDone) (oneTask hugeTask) =
       (httpError "Failed to create invoice" StatusInternalServerError,
        oneTask hugeTask).
Proof.
  split_and!; try reflexivity. vm_compute. discriminate.
Qed.

Lemma transition_issues_one_invoice_witness :
  billingRequests (updateTask envBillingUp (putRequest updateT1 markDone)
                     (oneTask reportTask)).2 =
  [mkBilling NilObjectID userU1 taskT1 2.5%float (PrimFloat.mul 2.5%float hourlyRate)].
Proof.
  refine (proj1 (transition_issues_one_invoice envBillingUp
           (putRequest updateT1 markDone) (oneTask reportTask) taskT1 markDone
           (<["hours" := VNum 8%float]> (<["status" := VStr "done"]> ∅))
           reportTask eq_refl eq_refl eq_refl eq_refl eq_refl _ eq_refl)).
  vm_compute. discriminate.
Defined.

Lemma repeated_done_issues_nothing_witness :
  billingRequests (updateTask envBillingUp (putRequest updateT1 markDone)
                     (oneTask doneTask)).2 = [].
Proof.
  refine (proj1 (proj2 (proj1 (repeated_done_issues_nothing envBillingUp
           (putRequest updateT1 markDone) (oneTask doneTask)) taskT1 markDone
           (<["hours" := VNum 8%float]> (<["status" := VStr "done"]> ∅))
           doneTask eq_refl eq_refl eq_refl eq_refl eq_refl eq_refl))).
Defined.

(** C4 fails as stated: a candidate whose start and end are both January 3
    is selected against a task from January 1 to January 5, although
    [max] of the starts is not before [min] of the ends, and it is stored
    with the warning. *)
Lemma instant_inside_interval_is_flagged :
  StartDate instantTask = EndDate instantTask
  /\ AssignedTo instantTask = AssignedTo reportTask
  /\ overlapFilter instantTask (encodeTask reportTask) = true
  /\ ~ Z.max (StartDate instantTask) (StartDate reportTask)
        < Z.min (EndDate instantTask) (EndDate reportTask)
  /\ Description (taskToInsert envBillingUp (oneTask reportTask) instantTask) =
       Description instantTask ++ overlapWarning.
Proof.
  split_and!; try reflexivity. vm_compute. discriminate.
Qed.

Lemma overlap_filter_spec_witness :
  overlapFilter secondTask (encodeTask reportTask) = true
  <-> StartDate secondTask < jan 5 /\ jan 1 < EndDate secondTask.
Proof.
  exact (proj1 (overlap_filter_spec secondTask (encodeTask reportTask)
                  (jan 1) (jan 5) eq_refl eq_refl eq_refl)).
Defined.

(** C5 fails as stated: a creation request whose body carries an
    [invoice_id] stores a task with that [invoice_id] although no update
    ever ran; and a task created as done and then set to done through the
    update path has no [invoice_id]. *)
Lemma creation_can_store_invoice_id :
  (exists d,
     tasks (createTask envBillingUp (postTask invoicedTask) emptyWorld).2 !! 900%N
       = Some d
     /\ d !! "invoice_id" = Some (VOid 55%N))
  /\ (let created := (createTask envBillingUp (postTask doneTask) emptyWorld).2 in
      let updated :=
        updateTask envBillingUp (putRequest updateNew markDone) created in
      code updated.1 = StatusNoContent
      /\ exists d, tasks updated.2 !! 900%N = Some d
           /\ d !! "status" = Some (VStr "done")
           /\ d !! "invoice_id" = None).
Proof.
  split; [eexists; split; reflexivity|].
  simpl. split; [reflexivity|]. eexists. split_and!; reflexivity.
Qed.

Lemma invoice_id_provenance_witness :
  (exists d,
     tasks (oneTask reportTask) !! taskT1 = Some d
     /\ (Some (VOid 77%N) = d !! "invoice_id"
         \/ exists updates currentTask created,
              ObjectIDFromHex (strDrop 14 updateT1) = Some taskT1
              /\ Some markDone = Some updates
              /\ findOneTask envBillingUp (oneTask reportTask) taskT1 =
                   Some currentTask
              /\ Status currentTask <> "done"
              /\ mapIndex updates "status" = VStr "done"
              /\ billingService envBillingUp (invoiceFor currentTask) =
                   HttpResponded StatusOK (Some created)
              /\ Some (VOid 77%N) = Some (VOid (BillingID created))))
  /\ (tasks (oneTask reportTask) !! 900%N =
        Some (encodeTask (taskToInsert envBillingUp (oneTask reportTask) invoicedTask))
      \/ tasks (oneTask reportTask) !! 900%N = None
         /\ exists task,
              Some invoicedTask = Some task
              /\ 900%N = NewObjectID envBillingUp
              /\ Some (VOid 55%N) =
                   if N.eqb (InvoiceID task) NilObjectID then None
                   else Some (VOid (InvoiceID task))).
Proof.
  split.
  - exact (proj1 (invoice_id_provenance envBillingUp (putRequest updateT1 markDone)
             (oneTask reportTask)) taskT1
             ((<["invoice_id" := VOid 77%N]>
                 (<["hours" := VNum 8%float]> (<["status" := VStr "done"]> ∅)))
              ∪ encodeTask reportTask)
             eq_refl).
  - exact (proj2 (proj2 (proj2 (invoice_id_provenance envBillingUp
             (postTask invoicedTask) (oneTask reportTask))))
             900%N
             (encodeTask (taskToInsert envBillingUp (oneTask reportTask) invoicedTask))
             eq_refl).
Defined.

(** C6 fails as stated: after a patch gave the task of the examples a
    text for hours (answered 204), a second task of the same assignee from
    January 3 to January 6 overlaps it, yet [cursor.All] fails on the stored
    document, its error is dropped, and the task is created without the
    warning. *)
Lemma unreadable_overlap_gets_no_warning :
  code (updateTask envBillingUp (putRequest updateT1 [("hours", VStr "plenty")])
          (oneTask reportTask)).1 = StatusNoContent
  /\ (exists d, tasks brokenWorld !! taskT1 = Some d
              /\ d !! "assigned_to" = Some (VOid (AssignedTo secondTask))
              /\ overlapFilter secondTask d = true)
  /\ (createTask envBillingUp (postTask secondTask) brokenWorld).1 =
     {| code := StatusOK; body := BTask (withID secondTask 900%N) |}
  /\ Description (withID secondTask 900%N) = Description secondTask.
Proof.
  split_and!; try reflexivity. eexists. split_and!; reflexivity.
Qed.

Lemma overlap_never_blocks_creation_witness :
  createTask envBillingUp (postTask secondTask) (oneTask reportTask) =
  ({| code := StatusOK;
      body := BTask (withID (withDescription secondTask
                               (Description secondTask ++ overlapWarning)) 900%N) |},
   setTasks (oneTask reportTask)
     (<[900%N := encodeTask (withID (withDescription secondTask
                               (Description secondTask ++ overlapWarning)) 900%N)]>
        (tasks (oneTask reportTask)))).
Proof.
  destruct (overlap_never_blocks_creation envBillingUp (postTask secondTask)
              (oneTask reportTask) secondTask eq_refl eq_refl eq_refl eq_refl)
    as (description & Hcreated & _ & Hwarned & _).
  rewrite Hcreated. rewrite Hwarned; [reflexivity|reflexivity| |].
  - intros id d Hd _. unfold oneTask in Hd. simpl in Hd.
    apply lookup_singleton_Some in Hd as [_ <-]. eexists. reflexivity.
  - exists taskT1, (encodeTask reportTask). split; reflexivity.
Defined.

(** C8 fails as stated: a patch whose [hours] is a text, or a negative
    number, is answered 204 and stored as it is. *)
Lemma hours_text_is_stored :
  (let r := updateTask envBillingUp
              (putRequest updateT1 [("hours", VStr "plenty")]) (oneTask reportTask) in
   code r.1 = StatusNoContent
   /\ exists d, tasks r.2 !! taskT1 = Some d
        /\ d !! "hours" = Some (VStr "plenty"))
  /\ (let r := updateTask envBillingUp
                 (putRequest updateT1 [("hours", VNum (-3)%float)])
                 (oneTask reportTask) in
      code r.1 = StatusNoContent
      /\ exists d, tasks r.2 !! taskT1 = Some d
           /\ d !! "hours" = Some (VNum (-3)%float)).
Proof.
  split; simpl; (split; [reflexivity|]); eexists; split; reflexivity.
Qed.

Lemma hours_written_verbatim_witness :
  exists objectID d,
    ObjectIDFromHex (strDrop 14 updateT1) = Some objectID
    /\ tasks (updateTask envBillingUp (putRequest updateT1 markDone)
                (oneTask reportTask)).2 !! objectID = Some d
    /\ d !! "hours" = Some (VNum 8%float).
Proof.
  refine (proj2 (proj2 (hours_written_verbatim envBillingUp
           (putRequest updateT1 markDone) (oneTask reportTask) markDone
           (VNum 8%float) eq_refl _ _)) eq_refl).
  - vm_compute. repeat constructor; rewrite ?not_elem_of_cons;
      repeat split; try discriminate; apply not_elem_of_nil.
  - unfold markDone. apply list_elem_of_further, list_elem_of_here.
Defined.

(** C9 fails as stated: a [start_date] that is a number, not a timestamp
    in the RFC 3339 layout, is not rejected; the patch is answered 204 and
    the task is left as it was. *)
Lemma numeric_date_is_not_rejected :
  updateTask envBillingUp (putRequest updateT1 [("start_date", VNum 5%float)])
    (oneTask reportTask) =
  ({| code := StatusNoContent; body := BEmpty |}, oneTask reportTask).
Proof. reflexivity. Qed.

Lemma unparseable_date_is_rejected_witness :
  exists msg, forall env' w,
    parseRFC3339 env' = parseRFC3339 envBillingUp ->
    updateTask env'
      (putRequest updateT1 [("status", VStr "done"); ("end_date", VStr "next week")]) w
    = (httpError msg StatusBadRequest, w).
Proof.
  refine (proj1 (unparseable_date_is_rejected envBillingUp
           (putRequest updateT1 [("status", VStr "done"); ("end_date", VStr "next week")])
           [("status", VStr "done"); ("end_date", VStr "next week")]
           "end_date" "next week" eq_refl _ eq_refl (or_intror eq_refl) _ eq_refl)).
  - by eexists.
  - apply list_elem_of_further, list_elem_of_here.
Defined.

Lemma unrecognized_keys_are_dropped_witness :
  (updateTask envBillingUp
     (putRequest updateT1 [("priority", VStr "high"); ("invoice_id", VStr "x")])
     (oneTask reportTask)).2 = oneTask reportTask.
Proof.
  refine (proj1 (proj2 (unrecognized_keys_are_dropped envBillingUp
           (putRequest updateT1 [("priority", VStr "high"); ("invoice_id", VStr "x")])
           (oneTask reportTask)
           [("priority", VStr "high"); ("invoice_id", VStr "x")] eq_refl _))).
  repeat constructor; simpl; unfold recognizedKeys;
    rewrite !not_elem_of_cons; repeat split; try discriminate;
    apply not_elem_of_nil.
Defined.

(** * Further properties of the handlers *)

(** ** Removal *)

(** X1: a DELETE of [/tasks/remove/<id>] on a store that answers is
    answered 204, the document of that id is gone, every other document and
    the billing requests are as before; when no document has the id the
    world is unchanged and the answer is still 204. *)
Theorem removeTask_removes_only_target env req w objectID :
  method req = "DELETE" ->
  ObjectIDFromHex (strDrop 14 (path req)) = Some objectID ->
  dbFails env OpDeleteOne = false ->
  (removeTask env req w).1 = {| code := StatusNoContent; body := BEmpty |}
  /\ tasks (removeTask env req w).2 !! objectID = None
  /\ (forall id, id <> objectID ->
        tasks (removeTask env req w).2 !! id = tasks w !! id)
  /\ billingRequests (removeTask env req w).2 = billingRequests w
  /\ (tasks w !! objectID = None -> (removeTask env req w).2 = w).
Proof.
  intros Hm Hid Hdb. unfold removeTask. rewrite Hm, Hid, Hdb. simpl.
  split_and!; try done.
  - apply lookup_delete_eq.
  - intros id Hne. by apply lookup_delete_ne.
  - intros Habsent. destruct w as [ts rs]. unfold setTasks. simpl in *.
    f_equal. by apply delete_id.
Qed.

(** ** Requests that fail *)

Lemma createTask_error_writes_nothing env req w :
  code (createTask env req w).1 <> StatusOK ->
  (createTask env req w).2 = w.
Proof.
  unfold createTask.
  destruct (bodyTask req); [|done].
  destruct (dbFails env OpFind); [done|].
  by destruct (_ || _).
Qed.

Lemma removeTask_error_writes_nothing env req w :
  code (removeTask env req w).1 <> StatusNoContent ->
  (removeTask env req w).2 = w.
Proof.
  unfold removeTask.
  destruct (negb _); [done|].
  destruct (ObjectIDFromHex _); [|done].
  by destruct (dbFails env OpDeleteOne).
Qed.

Lemma removeAllTasks_error_writes_nothing env req w :
  code (removeAllTasks env req w).1 <> StatusOK ->
  (removeAllTasks env req w).2 = w.
Proof.
  unfold removeAllTasks.
  destruct (negb _); [done|].
  by destruct (dbFails env OpDeleteMany).
Qed.

Lemma getTask_reads env req w : (getTask env req w).2 = w.
Proof.
  unfold getTask.
  destruct (ObjectIDFromHex _); [|done].
  by destruct (findOneTask env w _).
Qed.

Lemma listTasks_reads env req w : (listTasks env req w).2 = w.
Proof.
  unfold listTasks.
  destruct (negb _); [done|].
  destruct (dbFails env OpFind); [done|].
  by destruct (cursorAll env _).
Qed.

Lemma listTasksByUser_reads env req w : (listTasksByUser env req w).2 = w.
Proof.
  unfold listTasksByUser.
  destruct (ObjectIDFromHex _); [|done].
  destruct (dbFails env OpFind); [done|].
  by destruct (cursorAll env _).
Qed.

(** X2: whichever handler of the service runs, a request that is not
    answered 200 or 204 leaves the task collection as it was; the three
    handlers that read leave the whole world as it was, whatever they
    answer. *)
Theorem failed_request_writes_nothing env req w handler :
  handler ∈ taskHandlers ->
  (code (handler env req w).1 <> StatusOK ->
   code (handler env req w).1 <> StatusNoContent ->
   tasks (handler env req w).2 = tasks w)
  /\ (handler ∈ [listTasks; getTask; listTasksByUser] ->
      (handler env req w).2 = w).
Proof.
  intros Hin. split.
  - intros Hok Hnc. unfold taskHandlers in Hin.
    rewrite !elem_of_cons in Hin.
    destruct Hin as [->|[->|[->|[->|[->|[->|[->|Hin]]]]]]].
    + by rewrite listTasks_reads.
    + by rewrite createTask_error_writes_nothing.
    + by rewrite getTask_reads.
    + destruct (updateTask_cases env req w)
        as [[_ Htasks]|(? & ? & ? & ? & ? & _ & _ & _ & _ & Hresp & _)];
        [done|]. by rewrite Hresp in Hnc.
    + unfold adminMiddleware in *. destruct (negb (isAdmin env req)); [done|].
      by rewrite removeTask_error_writes_nothing.
    + by rewrite removeAllTasks_error_writes_nothing.
    + by rewrite listTasksByUser_reads.
    + by apply elem_of_nil in Hin.
  - intros Hread. rewrite !elem_of_cons in Hread.
    destruct Hread as [->|[->|[->|Hread]]].
    + apply listTasks_reads.
    + apply getTask_reads.
    + apply listTasksByUser_reads.
    + by apply elem_of_nil in Hread.
Qed.

(** ** Updates *)

Lemma findOneTask_absent env w objectID :
  tasks w !! objectID = None -> findOneTask env w objectID = None.
Proof.
  intros Habsent. unfold findOneTask. rewrite Habsent.
  by destruct (dbFails env OpFindOne).
Qed.

(** An update of an id the collection does not hold, with a patch that
    passes the loop, is answered 404 with the world as it was. *)
Lemma update_of_missing_task env req w objectID updates setDoc :
  method req = "PUT" ->
  ObjectIDFromHex (strDrop 14 (path req)) = Some objectID ->
  bodyMap req = Some updates ->
  buildUpdateDoc env updates ∅ = inr setDoc ->
  tasks w !! objectID = None ->
  updateTask env req w = (httpError "Task not found" StatusNotFound, w).
Proof.
  intros Hm Hid Hbody Hpatch Habsent. unfold updateTask.
  by rewrite Hm, Hid, Hbody, Hpatch, findOneTask_absent.
Qed.

(** X3: an update changes no document but the one its path names, and
    adds or removes none: the collection holds the same ids before and
    after. *)
Theorem update_touches_one_document env req w :
  (forall objectID id,
     ObjectIDFromHex (strDrop 14 (path req)) = Some objectID ->
     id <> objectID ->
     tasks (updateTask env req w).2 !! id = tasks w !! id)
  /\ (ObjectIDFromHex (strDrop 14 (path req)) = None ->
      (updateTask env req w).2 = w)
  /\ dom (tasks (updateTask env req w).2) = dom (tasks w).
Proof.
  split_and!.
  - intros objectID id Hid Hne.
    destruct (updateTask_cases env req w)
      as [[_ ->]|(objectID' & ? & ? & ? & written & Hid' & _ & _ & _ & _ & -> & _)];
      [done|].
    rewrite Hid in Hid'. injection Hid' as <-.
    rewrite lookup_alter. by rewrite decide_False.
  - intros Hid. unfold updateTask. rewrite Hid. by destruct (negb _).
  - destruct (updateTask_cases env req w)
      as [[_ ->]|(objectID' & ? & ? & ? & written & _ & _ & _ & _ & _ & -> & _)];
      [done|].
    apply dom_alter_L.
Qed.

(** ** The order of the patch *)

Lemma buildUpdateDoc_step env kv rest acc :
  buildUpdateDoc env (kv :: rest) acc =
  match patchStep env kv with
  | StepReturn response => inl response
  | StepSet key value => buildUpdateDoc env rest (<[key := value]> acc)
  | StepSkip => buildUpdateDoc env rest acc
  end.
Proof.
  destruct kv as [key value]. simpl. unfold patchStep. simpl.
  destruct (classifyKey key); try done.
  - destruct value; try done. by destruct (parseRFC3339 env s).
  - destruct value; try done. by destruct (ObjectIDFromHex s).
Qed.

Lemma patchStep_key env kv key value :
  patchStep env kv = StepSet key value -> key = kv.1.
Proof.
  unfold patchStep. destruct (classifyKey kv.1) eqn:Hc; try done.
  - by intros [= <- _].
  - destruct kv.2; try done. destruct (parseRFC3339 env s); [|done].
    by intros [= <- _].
  - destruct kv.2; try done. destruct (ObjectIDFromHex s); [|done].
    intros [= <- _]. symmetry. by apply classifyKey_parent.
Qed.

Lemma samePatch_refl r : samePatch r r.
Proof. by destruct r. Qed.

Lemma samePatch_trans r1 r2 r3 :
  samePatch r1 r2 -> samePatch r2 r3 -> samePatch r1 r3.
Proof. destruct r1, r2, r3; simpl; try done. congruence. Qed.

(** The map of a patch can be visited in any order: the loop fails for
    all orders or for none, and when it does not fail it builds the same
    document. *)
Lemma buildUpdateDoc_order env updates updates' :
  updates ≡ₚ updates' ->
  NoDup updates.*1 ->
  forall acc,
    samePatch (buildUpdateDoc env updates acc) (buildUpdateDoc env updates' acc).
Proof.
  induction 1 as [|kv l l' Hperm IH|kv1 kv2 l|l1 l2 l3 H12 IH12 H23 IH23];
    intros Hnd acc.
  - apply samePatch_refl.
  - rewrite !buildUpdateDoc_step.
    apply NoDup_cons in Hnd as [_ Hnd].
    destruct (patchStep env kv); [done|by apply IH..].
  - rewrite !buildUpdateDoc_step.
    apply NoDup_cons in Hnd as [Hne _].
    simpl in Hne. rewrite not_elem_of_cons in Hne. destruct Hne as [Hne _].
    destruct (patchStep env kv1) as [r1|k1 v1|] eqn:H1,
             (patchStep env kv2) as [r2|k2 v2|] eqn:H2;
      rewrite ?buildUpdateDoc_step, ?H1, ?H2;
      try done; try apply samePatch_refl.
    apply patchStep_key in H1, H2. subst k1 k2.
    rewrite insert_insert_ne by done. apply samePatch_refl.
  - eapply samePatch_trans; [by apply IH12|].
    apply IH23. by rewrite <- H12.
Qed.

Lemma mapIndex_elem updates k v :
  NoDup updates.*1 -> (k, v) ∈ updates -> mapIndex updates k = v.
Proof.
  induction updates as [|[key value] rest IH]; simpl; intros Hnd Hin.
  { by apply elem_of_nil in Hin. }
  apply NoDup_cons in Hnd as [Hfresh Hnd].
  apply elem_of_cons in Hin as [[= <- <-]|Hin].
  { by rewrite String.eqb_refl. }
  destruct (String.eqb_spec key k) as [->|_]; [|by apply IH].
  destruct Hfresh. apply list_elem_of_fmap. by exists (k, v).
Qed.

Lemma mapIndex_order updates updates' k :
  updates ≡ₚ updates' -> NoDup updates.*1 ->
  mapIndex updates k = mapIndex updates' k.
Proof.
  intros Hperm Hnd.
  assert (Hnd' : NoDup updates'.*1) by (by rewrite <- Hperm).
  destruct (decide (k ∈ updates.*1)) as [Hin|Hout].
  - apply list_elem_of_fmap in Hin as ([k' v] & -> & Hin). simpl.
    rewrite (mapIndex_elem updates k' v) by done.
    symmetry. apply mapIndex_elem; [done|]. by rewrite <- Hperm.
  - rewrite !mapIndex_absent; [done| |done]. by rewrite <- Hperm.
Qed.

(** X4: the order in which [range] visits the map of the patch does not
    matter: two requests that differ only in that order leave the same
    world and are answered with the same status code. *)
Theorem update_ignores_map_order env req req' w updates updates' :
  method req' = method req ->
  path req' = path req ->
  bodyMap req = Some updates ->
  bodyMap req' = Some updates' ->
  updates ≡ₚ updates' ->
  NoDup updates.*1 ->
  (updateTask env req' w).2 = (updateTask env req w).2
  /\ code (updateTask env req' w).1 = code (updateTask env req w).1.
Proof.
  intros Hm Hp Hbody Hbody' Hperm Hnd. unfold updateTask.
  rewrite Hm, Hp, Hbody, Hbody'.
  destruct (negb _); [done|].
  destruct (ObjectIDFromHex _) as [objectID|]; [|done].
  pose proof (buildUpdateDoc_order env updates updates' Hperm Hnd ∅) as Hsame.
  destruct (buildUpdateDoc env updates ∅) as [r|setDoc] eqn:H1,
           (buildUpdateDoc env updates' ∅) as [r'|setDoc'] eqn:H2;
    simpl in Hsame; try done.
  - apply buildUpdateDoc_error in H1 as [? ->].
    by apply buildUpdateDoc_error in H2 as [? ->].
  - subst setDoc'.
    destruct (findOneTask env w objectID) as [currentTask|]; [|done].
    unfold becomesDone.
    by rewrite (mapIndex_order updates updates' "status" Hperm Hnd).
Qed.

(** ** Sending a request twice *)

Lemma world_eq (w1 w2 : World) :
  tasks w1 = tasks w2 -> billingRequests w1 = billingRequests w2 -> w1 = w2.
Proof. destruct w1, w2. simpl. by intros -> ->. Qed.

Lemma union_twice (m d : Doc) : m ∪ (m ∪ d) = m ∪ d.
Proof. by rewrite (assoc_L (∪)), (idemp_L (∪)). Qed.

Lemma updateTask_sends_nothing env req w updates :
  bodyMap req = Some updates ->
  mapIndex updates "status" <> VStr "done" ->
  billingRequests (updateTask env req w).2 = billingRequests w.
Proof.
  intros Hbody Hstatus.
  destruct (updateTask_requests env req w) as (sent & -> & _ & Hsent).
  destruct sent as [|b sent]; [by rewrite app_nil_r|].
  destruct Hsent as (? & updates' & ? & _ & Hbody' & _ & _ & Hdone); [done|].
  rewrite Hbody in Hbody'. injection Hbody' as <-. done.
Qed.

(** X5: a patch that does not set status to done is idempotent: when the
    request is answered 204 and sent again, the second run, if it is
    answered 204 too, leaves the world as the first left it. *)
Theorem plain_patch_is_idempotent env req w updates :
  bodyMap req = Some updates ->
  mapIndex updates "status" <> VStr "done" ->
  code (updateTask env req w).1 = StatusNoContent ->
  code (updateTask env req (updateTask env req w).2).1 = StatusNoContent ->
  (updateTask env req (updateTask env req w).2).2 = (updateTask env req w).2.
Proof.
  intros Hbody Hstatus Hfirst Hsecond.
  set (w1 := (updateTask env req w).2) in *.
  apply world_eq; [|by apply (updateTask_sends_nothing env req w1 updates)].
  assert (Hplain : forall currentTask, becomesDone currentTask updates = false).
  { intros currentTask. apply not_true_is_false. rewrite becomesDone_spec. tauto. }
  destruct (updateTask_cases env req w)
    as [[Hne _]|(objectID & updates1 & setDoc & cur1 & written1
                 & Hid & Hbody1 & Hpatch & _ & _ & Htasks1 & Hwritten1)];
    [done|].
  rewrite Hbody in Hbody1. injection Hbody1 as <-.
  destruct Hwritten1 as [[_ ->]|[Hguard _]]; [|by rewrite Hplain in Hguard].
  destruct (updateTask_cases env req w1)
    as [[Hne _]|(objectID2 & updates2 & setDoc2 & cur2 & written2
                 & Hid2 & Hbody2 & Hpatch2 & _ & _ & Htasks2 & Hwritten2)];
    [done|].
  rewrite Hid in Hid2. injection Hid2 as <-.
  rewrite Hbody in Hbody2. injection Hbody2 as <-.
  rewrite Hpatch in Hpatch2. injection Hpatch2 as <-.
  destruct Hwritten2 as [[_ ->]|[Hguard _]]; [|by rewrite Hplain in Hguard].
  rewrite Htasks2. apply alter_id. intros d Hd. fold w1 in Htasks1.
  rewrite Htasks1, lookup_alter, decide_True in Hd by done.
  destruct (tasks w !! objectID) as [d0|]; [|done].
  injection Hd as <-. apply union_twice.
Qed.

Lemma mapIndex_member updates k v :
  mapIndex updates k = v -> v <> VNull -> (k, v) ∈ updates.
Proof.
  induction updates as [|[key value] rest IH]; simpl; [congruence|].
  destruct (String.eqb_spec key k) as [->|_].
  - intros -> _. apply list_elem_of_here.
  - intros Hv Hne. apply list_elem_of_further. by apply IH.
Qed.

(** X6: once a patch that sets status to done has been answered 204, the
    stored document says done, and sending the same request again hands
    nothing more to the billing service, as long as the decoder takes the
    status of a task from the status field of its document. *)
Theorem repeated_request_bills_once env req w updates :
  bodyMap req = Some updates ->
  NoDup updates.*1 ->
  mapIndex updates "status" = VStr "done" ->
  (forall d t st,
     decodeTask env d = Some t -> d !! "status" = Some (VStr st) -> Status t = st) ->
  code (updateTask env req w).1 = StatusNoContent ->
  (exists objectID d,
     ObjectIDFromHex (strDrop 14 (path req)) = Some objectID
     /\ tasks (updateTask env req w).2 !! objectID = Some d
     /\ d !! "status" = Some (VStr "done"))
  /\ billingRequests (updateTask env req (updateTask env req w).2).2 =
     billingRequests (updateTask env req w).2.
Proof.
  intros Hbody Hnd Hdone Hdecode Hfirst.
  set (w1 := (updateTask env req w).2) in *.
  assert (Hin : ("status", VStr "done") ∈ updates)
    by (by apply mapIndex_member).
  assert (Hstored : exists objectID d,
    ObjectIDFromHex (strDrop 14 (path req)) = Some objectID
    /\ tasks w1 !! objectID = Some d /\ d !! "status" = Some (VStr "done")).
  { destruct (updateTask_cases env req w)
      as [[Hne _]|(objectID & updates1 & setDoc & cur1 & written
                   & Hid & Hbody1 & Hpatch & Hload & _ & Htasks & Hwritten)];
      [done|].
    rewrite Hbody in Hbody1. injection Hbody1 as <-.
    destruct (loaded_document env w objectID cur1 Hload) as [d0 Hd0].
    exists objectID, (written ∪ d0). split; [done|]. split.
    - subst w1. rewrite Htasks, lookup_alter, decide_True by done.
      by rewrite Hd0.
    - apply lookup_union_Some_l.
      assert (Hset : setDoc !! "status" = Some (VStr "done"))
        by (by eapply buildUpdateDoc_copied).
      destruct Hwritten as [[_ ->]|[_ (created & _ & ->)]]; [done|].
      by rewrite lookup_insert_ne. }
  split; [done|].
  destruct Hstored as (objectID & d & Hid & Hd & Hst).
  destruct (updateTask_requests env req w1) as (sent & -> & _ & Hsent).
  destruct sent as [|b sent]; [by rewrite app_nil_r|].
  destruct Hsent as (objectID2 & ? & cur2 & Hid2 & _ & Hload2 & Hnot & _); [done|].
  rewrite Hid in Hid2. injection Hid2 as <-.
  unfold findOneTask in Hload2.
  destruct (dbFails env OpFindOne); [done|].
  rewrite Hd in Hload2. simpl in Hload2.
  by rewrite (Hdecode d cur2 "done" Hload2 Hst) in Hnot.
Qed.

(** X7: when the billing service has created the record and the write of
    the task then fails, the handler answers 500 and the task is as it was,
    not done, but the record has been handed over; the same request sent
    again hands over a second record for the same task. *)
Theorem invoice_outlives_failed_write env req w objectID updates setDoc
    currentTask created :
  method req = "PUT" ->
  ObjectIDFromHex (strDrop 14 (path req)) = Some objectID ->
  bodyMap req = Some updates ->
  buildUpdateDoc env updates ∅ = inr setDoc ->
  findOneTask env w objectID = Some currentTask ->
  Status currentTask <> "done" ->
  mapIndex updates "status" = VStr "done" ->
  jsonMarshalBilling (invoiceFor currentTask) = true ->
  billingService env (invoiceFor currentTask) =
    HttpResponded StatusOK (Some created) ->
  dbFails env OpUpdateOne = true ->
  updateTask env req w =
    (httpError "Failed to update task" StatusInternalServerError,
     postBilling w (invoiceFor currentTask))
  /\ (updateTask env req (postBilling w (invoiceFor currentTask))).2 =
     postBilling (postBilling w (invoiceFor currentTask)) (invoiceFor currentTask).
Proof.
  intros Hm Hid Hbody Hpatch Hload Hst Hdone Hmarshal Hanswer Hdb.
  assert (Hrun : forall w0, findOneTask env w0 objectID = Some currentTask ->
    updateTask env req w0 =
      (httpError "Failed to update task" StatusInternalServerError,
       postBilling w0 (invoiceFor currentTask))).
  { intros w0 Hload0.
    rewrite (updateTask_at_guard env req w0 objectID updates setDoc currentTask)
      by done.
    rewrite (proj2 (becomesDone_spec _ _) (conj Hst Hdone)).
    rewrite (createInvoice_succeeds env currentTask w0 created) by done.
    unfold persistUpdate. by rewrite Hdb. }
  split; [by apply Hrun|].
  by rewrite Hrun.
Qed.

(** ** Creation followed by another request *)

Lemma createTask_requests env req w :
  billingRequests (createTask env req w).2 = billingRequests w.
Proof.
  unfold createTask.
  destruct (bodyTask req); [|done].
  destruct (dbFails env OpFind); [done|].
  by destruct (_ || _).
Qed.

Lemma createTask_created env req w :
  code (createTask env req w).1 = StatusOK ->
  exists task,
    bodyTask req = Some task
    /\ tasks w !! NewObjectID env = None
    /\ createTask env req w =
         ({| code := StatusOK; body := BTask (taskToInsert env w task) |},
          setTasks w (<[NewObjectID env := encodeTask (taskToInsert env w task)]>
                        (tasks w))).
Proof.
  unfold createTask.
  destruct (bodyTask req) as [task|]; [|done].
  destruct (dbFails env OpFind); [done|].
  destruct (_ || _) eqn:Hins; [done|]. intros _.
  apply orb_false_iff in Hins as [_ Hfresh].
  apply bool_decide_eq_false in Hfresh.
  destruct (taskToInsert_fields env w task) as (description & Hstored & _).
  exists task. rewrite Hstored in *. simpl in *. split_and!; try done.
  destruct (tasks w !! NewObjectID env) eqn:Hl; [|done].
  destruct Hfresh. by eexists.
Qed.

Lemma encodeTask_status t : encodeTask t !! "status" = Some (VStr (Status t)).
Proof.
  unfold encodeTask.
  destruct (N.eqb (InvoiceID t) NilObjectID), (ParentTask t); done.
Qed.

Lemma taskToInsert_status env w task :
  Status (taskToInsert env w task) = Status task.
Proof. by destruct (taskToInsert_fields env w task) as (? & -> & _). Qed.

(** X8: a task that a creation request stores with status done is billed
    neither by the creation nor by the update that runs next on its id,
    whatever the patch of that update: the creation path issues no invoice
    and the guard of the update sees a task that is done. *)
Theorem task_created_done_skips_billing env env' req req' w task :
  bodyTask req = Some task ->
  Status task = "done" ->
  code (createTask env req w).1 = StatusOK ->
  ObjectIDFromHex (strDrop 14 (path req')) = Some (NewObjectID env) ->
  (forall d t st,
     decodeTask env' d = Some t -> d !! "status" = Some (VStr st) -> Status t = st) ->
  billingRequests (updateTask env' req' (createTask env req w).2).2 =
  billingRequests w.
Proof.
  intros Hbody Hst Hcreated Hid Hdecode.
  destruct (createTask_created env req w Hcreated) as (task' & Hbody' & _ & Hrun).
  rewrite Hbody in Hbody'. injection Hbody' as <-.
  rewrite <- (createTask_requests env req w).
  set (w1 := (createTask env req w).2).
  assert (Hw1 : tasks w1 !! NewObjectID env =
                Some (encodeTask (taskToInsert env w task))).
  { subst w1. rewrite Hrun. simpl. apply lookup_insert_eq. }
  destruct (updateTask_requests env' req' w1) as (sent & -> & _ & Hsent).
  destruct sent as [|b sent]; [by rewrite app_nil_r|].
  destruct Hsent as (objectID & ? & cur & Hid' & _ & Hload & Hnot & _); [done|].
  rewrite Hid in Hid'. injection Hid' as <-.
  unfold findOneTask in Hload.
  destruct (dbFails env' OpFindOne); [done|].
  rewrite Hw1 in Hload. simpl in Hload.
  destruct Hnot.
  rewrite (Hdecode _ cur _ Hload (encodeTask_status _)).
  by rewrite taskToInsert_status.
Qed.

(** X9: a task that has been created can be fetched under the id of the
    answer: [getTask] on that id answers 200 with the task as it was
    stored, given that the driver decodes the document it encoded. *)
Theorem created_task_can_be_fetched env env' req req' w task :
  bodyTask req = Some task ->
  dbFails env OpFind = false ->
  dbFails env OpInsertOne = false ->
  tasks w !! NewObjectID env = None ->
  ObjectIDFromHex (strDrop 11 (path req')) = Some (NewObjectID env) ->
  dbFails env' OpFindOne = false ->
  decodeTask env' (encodeTask (taskToInsert env w task)) =
    Some (taskToInsert env w task) ->
  (createTask env req w).1 =
    {| code := StatusOK; body := BTask (taskToInsert env w task) |}
  /\ exists subtasks,
       getTask env' req' (createTask env req w).2 =
       ({| code := StatusOK;
           body := BTaskWithSubtasks (taskToInsert env w task) subtasks |},
        (createTask env req w).2).
Proof.
  intros Hbody Hfind Hins Hfresh Hid Hfo Hround.
  rewrite (createTask_stores env req w task) by done. split; [done|].
  unfold getTask. rewrite Hid. unfold findOneTask. rewrite Hfo. simpl.
  destruct (taskToInsert_fields env w task) as (description & Hstored & _).
  rewrite Hstored in *. simpl. rewrite lookup_insert_eq. simpl. rewrite Hround.
  by eexists.
Qed.

(** X10: removing a task right after its creation gives back the world
    before the creation. *)
Theorem create_then_remove_restores env env' req req' w :
  code (createTask env req w).1 = StatusOK ->
  method req' = "DELETE" ->
  ObjectIDFromHex (strDrop 14 (path req')) = Some (NewObjectID env) ->
  dbFails env' OpDeleteOne = false ->
  removeTask env' req' (createTask env req w).2 =
    ({| code := StatusNoContent; body := BEmpty |}, w).
Proof.
  intros Hcreated Hm Hid Hdb.
  destruct (createTask_created env req w Hcreated) as (task & _ & Hfresh & ->).
  unfold removeTask. rewrite Hm, Hid, Hdb. simpl. f_equal.
  destruct w as [ts rs]. unfold setTasks. simpl in *. f_equal.
  by apply delete_insert_id.
Qed.

(** ** Reading *)

Lemma fieldIs_spec k id d : fieldIs k id d = true <-> d !! k = Some (VOid id).
Proof.
  unfold fieldIs. destruct (d !! k) as [[]|]; try (split; [done|congruence]).
  rewrite N.eqb_eq. split; congruence.
Qed.

(** X11: when [listTasksByUser] answers 200, the tasks of the answer are
    the decodings, one for one, of the stored documents whose [assigned_to]
    is the id of the path, and of no other document. *)
Theorem listTasksByUser_lists_the_assigned env req w user ts :
  ObjectIDFromHex (strDrop 18 (path req)) = Some user ->
  (listTasksByUser env req w).1 = {| code := StatusOK; body := BTasks ts |} ->
  exists docs,
    Forall2 (fun d t => decodeTask env d = Some t) docs ts
    /\ forall d, d ∈ docs <->
         d !! "assigned_to" = Some (VOid user)
         /\ exists id, tasks w !! id = Some d.
Proof.
  intros Hid. unfold listTasksByUser. rewrite Hid.
  destruct (dbFails env OpFind); [done|].
  unfold cursorAll. destruct (dbFails env OpCursorAll); [done|].
  destruct (mapM _ _) as [ts'|] eqn:Hall; [|done].
  intros [= <-].
  exists (findDocs w (fieldIs "assigned_to" user)). split.
  - by apply mapM_Some.
  - intros d. by rewrite findDocs_elem, fieldIs_spec.
Qed.

(** X12: a stored document that the driver does not decode as a task is
    out of reach of the service: an update on its id writes nothing and is
    never answered 204, so no patch can repair it; [getTask] answers 404
    as for an id that does not exist; and [listTasks] never answers 200
    while the document is there. *)
Theorem undecodable_task_is_stuck env w id d :
  tasks w !! id = Some d ->
  decodeTask env d = None ->
  (forall req,
     ObjectIDFromHex (strDrop 14 (path req)) = Some id ->
     (updateTask env req w).2 = w
     /\ code (updateTask env req w).1 <> StatusNoContent)
  /\ (forall req,
        ObjectIDFromHex (strDrop 11 (path req)) = Some id ->
        getTask env req w = (httpError "Task not found" StatusNotFound, w))
  /\ (forall req, code (listTasks env req w).1 <> StatusOK).
Proof.
  intros Hd Hdec.
  assert (Hload : findOneTask env w id = None).
  { unfold findOneTask. destruct (dbFails env OpFindOne); [done|].
    rewrite Hd. simpl. done. }
  split_and!.
  - intros req Hid. unfold updateTask. rewrite Hid, Hload.
    destruct (negb _); [done|].
    destruct (bodyMap req) as [updates|]; [|done].
    destruct (buildUpdateDoc env updates ∅) as [r|setDoc] eqn:Hpatch; [|done].
    apply buildUpdateDoc_error in Hpatch as [msg ->]. done.
  - intros req Hid. unfold getTask. by rewrite Hid, Hload.
  - intros req. unfold listTasks.
    destruct (negb _); [done|].
    destruct (dbFails env OpFind); [done|].
    unfold cursorAll. destruct (dbFails env OpCursorAll); [done|].
    destruct (mapM _ _) as [ts|] eqn:Hall; [|done].
    exfalso. apply mk_is_Some, mapM_is_Some in Hall.
    rewrite Forall_forall in Hall.
    assert (Hin : d ∈ findDocs w (fun _ => true)).
    { apply findDocs_elem. split; [done|by exists id]. }
    destruct (Hall d Hin) as [t Ht]. simpl in Ht. congruence.
Qed.

(** ** The gate *)

(** X13: the gate in front of [removeTask] opens exactly when the user
    service answers 200 with the role admin for the id the request names,
    the header [User-ID] or, when that is empty, the query parameter
    [user_id]; when it stays closed the answer is 401 and the world is as
    it was, and when it opens the request is handled as by [removeTask]. *)
Theorem gate_opens_for_admin_only next env req w :
  let userID :=
    if String.eqb (headerUserID req) EmptyString then queryUserID req
    else headerUserID req in
  (isAdmin env req = true <->
   userService env userID = HttpResponded StatusOK (Some "admin"))
  /\ (userService env userID <> HttpResponded StatusOK (Some "admin") ->
      adminMiddleware next env req w =
        (httpError "Unauthorized" StatusUnauthorized, w))
  /\ (userService env userID = HttpResponded StatusOK (Some "admin") ->
      adminMiddleware next env req w = next env req w).
Proof.
  intros userID.
  assert (Hiff : isAdmin env req = true <->
    userService env userID = HttpResponded StatusOK (Some "admin")).
  { split.
    - intros H. by destruct (isAdmin_true env req H) as (? & ? & ->).
    - intros H. unfold isAdmin. fold userID. by rewrite H. }
  split_and!; [done|..].
  - intros Hne. apply adminMiddleware_fail_closed.
    apply not_true_is_false. by rewrite Hiff.
  - intros Hadmin. apply adminMiddleware_admin. by apply Hiff.
Qed.

(** ** Bootstrap *)

Lemma existsb_eqb x (l : list string) :
  existsb (String.eqb x) l = true <-> x ∈ l.
Proof.
  rewrite existsb_exists, list_elem_of_In. split.
  - intros (y & Hin & Heq). apply String.eqb_eq in Heq. by subst.
  - intros Hin. exists x. split; [done|apply String.eqb_refl].
Qed.

Lemma collectionsOf_member srv db coll :
  coll ∈ collectionsOf srv db -> db ∈ dom srv.
Proof.
  unfold collectionsOf. destruct (srv !! db) as [colls|] eqn:Hdb; simpl.
  - intros _. apply elem_of_dom. by eexists.
  - intros Hin. by apply not_elem_of_empty in Hin.
Qed.

Lemma collectionsOf_insert srv db colls db' :
  collectionsOf (<[db := colls]> srv) db' =
  if decide (db = db') then colls else collectionsOf srv db'.
Proof.
  unfold collectionsOf. rewrite lookup_insert. by case_decide.
Qed.

Lemma createCollection_spec fails db coll srv srv' :
  createCollection fails db coll srv = Some srv' ->
  (coll ∉ collectionsOf srv db)
  /\ forall db' c,
       c ∈ collectionsOf srv' db' <->
       c ∈ collectionsOf srv db' \/ (db' = db /\ c = coll).
Proof.
  unfold createCollection. destruct (fails OpCreateCollection); [done|].
  case_decide as Hin; [done|]. intros [= <-]. split; [done|].
  intros db' c. rewrite collectionsOf_insert. case_decide as Heq.
  - subst db'. rewrite elem_of_union, elem_of_singleton. tauto.
  - split; [by left|]. intros [?|[? _]]; [done|]. by subst.
Qed.

Lemma ensure_ok_has_collection fails dbName collectionName srv :
  (ensureDatabaseAndCollection fails dbName collectionName srv).1 = true ->
  collectionName
    ∈ collectionsOf (ensureDatabaseAndCollection fails dbName collectionName srv).2
        dbName.
Proof.
  unfold ensureDatabaseAndCollection.
  assert (Hcreate :
    let r := match createCollection fails dbName collectionName srv with
             | None => (false, srv)
             | Some srv' => (true, srv')
             end in
    r.1 = true -> collectionName ∈ collectionsOf r.2 dbName).
  { destruct (createCollection _ _ _ _) as [srv'|] eqn:Hc; simpl; [|done].
    apply createCollection_spec in Hc as [_ Hc]. intros _. apply Hc. by right. }
  destruct (fails OpListDatabaseNames); [done|].
  destruct (negb (existsb _ (elements (dom srv)))); [exact Hcreate|].
  destruct (fails OpListCollectionNames); [done|].
  destruct (existsb _ (elements (collectionsOf srv dbName))) eqn:Hex; simpl;
    [|exact Hcreate].
  intros _. by apply existsb_eqb, elem_of_elements in Hex.
Qed.

(** X14: when [ensureDatabaseAndCollection] returns no error the collection
    exists, the collections the server had are all still there and the only
    one that can be new is the collection asked for; when it returns an
    error the server is as it was. *)
Theorem ensure_adds_only_the_collection fails dbName collectionName srv :
  let result := ensureDatabaseAndCollection fails dbName collectionName srv in
  (result.1 = true ->
   collectionName ∈ collectionsOf result.2 dbName
   /\ forall db c,
        c ∈ collectionsOf result.2 db <->
        c ∈ collectionsOf srv db \/ (db = dbName /\ c = collectionName))
  /\ (result.1 = false -> result.2 = srv).
Proof.
  simpl. unfold ensureDatabaseAndCollection.
  assert (Hcreate :
    let r := match createCollection fails dbName collectionName srv with
             | None => (false, srv)
             | Some srv' => (true, srv')
             end in
    (r.1 = true ->
     collectionName ∈ collectionsOf r.2 dbName
     /\ forall db c, c ∈ collectionsOf r.2 db <->
          c ∈ collectionsOf srv db \/ (db = dbName /\ c = collectionName))
    /\ (r.1 = false -> r.2 = srv)).
  { destruct (createCollection _ _ _ _) as [srv'|] eqn:Hc; simpl; [|done].
    apply createCollection_spec in Hc as [_ Hc]. split; [|done].
    intros _. split; [|done]. apply Hc. by right. }
  destruct (fails OpListDatabaseNames); [done|].
  destruct (negb (existsb _ (elements (dom srv)))); [exact Hcreate|].
  destruct (fails OpListCollectionNames); [done|].
  destruct (existsb _ (elements (collectionsOf srv dbName))) eqn:Hex; simpl;
    [|exact Hcreate].
  apply existsb_eqb, elem_of_elements in Hex.
  split; [|done]. intros _. split; [done|].
  intros db c. split; [by left|]. intros [?|[-> ->]]; done.
Qed.

(** X15: on a server that has the collection, the function returns no
    error and creates nothing, also when the server would refuse a
    creation; so after one run without error every later run leaves the
    server as it is. *)
Theorem ensure_is_idempotent fails fails' dbName collectionName srv :
  fails' OpListDatabaseNames = false ->
  fails' OpListCollectionNames = false ->
  (collectionName ∈ collectionsOf srv dbName ->
   ensureDatabaseAndCollection fails' dbName collectionName srv = (true, srv))
  /\ ((ensureDatabaseAndCollection fails dbName collectionName srv).1 = true ->
      ensureDatabaseAndCollection fails' dbName collectionName
        (ensureDatabaseAndCollection fails dbName collectionName srv).2 =
      (true, (ensureDatabaseAndCollection fails dbName collectionName srv).2)).
Proof.
  intros Hdbs Hcolls.
  assert (Hhas : forall srv0, collectionName ∈ collectionsOf srv0 dbName ->
    ensureDatabaseAndCollection fails' dbName collectionName srv0 = (true, srv0)).
  { intros srv0 Hin. unfold ensureDatabaseAndCollection. rewrite Hdbs, Hcolls.
    rewrite (proj2 (existsb_eqb dbName (elements (dom srv0)))).
    2: { apply elem_of_elements. by eapply collectionsOf_member. }
    simpl.
    rewrite (proj2 (existsb_eqb collectionName
                      (elements (collectionsOf srv0 dbName)))).
    2: { by apply elem_of_elements. }
    done. }
  split; [apply Hhas|].
  intros Hok. by apply Hhas, ensure_ok_has_collection.
Qed.

(** ** The billing service *)

Lemma billingUpdate_replaces old new :
  BillingService.billingUpdate new ∪ BillingService.encodeBilling old =
  BillingService.encodeBilling
    (mkBilling (BillingID old) (UserID new) (TaskID new) (BillingHours new)
               (Amount new)).
Proof.
  apply map_eq. intros k.
  unfold BillingService.billingUpdate, BillingService.encodeBilling.
  rewrite lookup_union.
  destruct (decide (k = "user_id")) as [->|?]; [done|].
  destruct (decide (k = "task_id")) as [->|?]; [done|].
  destruct (decide (k = "hours")) as [->|?]; [done|].
  destruct (decide (k = "amount")) as [->|?]; [done|].
  destruct (decide (k = "_id")) as [->|?]; [done|].
  by rewrite !lookup_insert_ne, !lookup_empty by done.
Qed.

(** X16: a billing record that has been created can be fetched under the
    id of the answer: the record is stored under a fresh id, whatever id
    the body gave, and [getBilling] on that id answers 200 with the same
    record, given that the driver decodes the document it encoded. *)
Theorem created_billing_can_be_fetched env env' req req' w billing :
  BillingService.method req = "POST" ->
  BillingService.bodyBilling req = Some billing ->
  BillingService.dbFails env OpInsertOne = false ->
  w !! BillingService.NewObjectID env = None ->
  BillingService.method req' = "GET" ->
  ObjectIDFromHex (strDrop 14 (BillingService.path req')) =
    Some (BillingService.NewObjectID env) ->
  BillingService.dbFails env' OpFindOne = false ->
  (forall b, BillingService.decodeBilling env' (BillingService.encodeBilling b)
             = Some b) ->
  let stored :=
    mkBilling (BillingService.NewObjectID env) (UserID billing) (TaskID billing)
              (BillingHours billing) (Amount billing) in
  BillingService.createBilling env req w =
    ({| BillingService.code := StatusOK;
        BillingService.body := BillingService.BBilling stored |},
     <[BillingService.NewObjectID env := BillingService.encodeBilling stored]> w)
  /\ BillingService.getBilling env' req'
       (BillingService.createBilling env req w).2 =
     ({| BillingService.code := StatusOK;
         BillingService.body := BillingService.BBilling stored |},
      (BillingService.createBilling env req w).2).
Proof.
  intros Hm Hbody Hins Hfresh Hm' Hid Hfo Hround stored.
  assert (Hcreate : BillingService.createBilling env req w =
    ({| BillingService.code := StatusOK;
        BillingService.body := BillingService.BBilling stored |},
     <[BillingService.NewObjectID env := BillingService.encodeBilling stored]> w)).
  { unfold BillingService.createBilling. rewrite Hm, Hbody. simpl.
    rewrite Hins, bool_decide_eq_false_2; [done|].
    rewrite Hfresh. by intros [? ?]. }
  split; [done|]. rewrite Hcreate. simpl.
  unfold BillingService.getBilling. rewrite Hm', Hid, Hfo. simpl.
  rewrite lookup_insert_eq. simpl. by rewrite Hround.
Qed.

(** X17: [updateBilling] replaces the four fields of the record of the
    path's id by those of the body and keeps its id, whatever id the body
    gives; on an id the collection does not hold it is answered 204 all the
    same and changes nothing. *)
Theorem updateBilling_replaces_the_record env req w objectID new :
  BillingService.method req = "PUT" ->
  ObjectIDFromHex (strDrop 17 (BillingService.path req)) = Some objectID ->
  BillingService.bodyBilling req = Some new ->
  BillingService.dbFails env OpUpdateOne = false ->
  (forall old,
     w !! objectID = Some (BillingService.encodeBilling old) ->
     BillingService.updateBilling env req w =
       ({| BillingService.code := StatusNoContent;
           BillingService.body := BillingService.BEmpty |},
        <[objectID :=
            BillingService.encodeBilling
              (mkBilling (BillingID old) (UserID new) (TaskID new)
                         (BillingHours new) (Amount new))]> w))
  /\ (w !! objectID = None ->
      BillingService.updateBilling env req w =
        ({| BillingService.code := StatusNoContent;
            BillingService.body := BillingService.BEmpty |}, w)).
Proof.
  intros Hm Hid Hbody Hdb.
  unfold BillingService.updateBilling. rewrite Hm, Hid, Hbody, Hdb. simpl.
  split.
  - intros old Hold. f_equal. apply map_eq. intros id.
    rewrite lookup_alter, lookup_insert. case_decide as Heq; [subst id|done].
    rewrite Hold. simpl. by rewrite billingUpdate_replaces.
  - intros Habsent. f_equal. by apply alter_id'.
Qed.

Lemma billingService_cases env req w :
  let result := BillingService.billingService env req w in
  result.2 = w
  \/ (exists billing,
        BillingService.bodyBilling req = Some billing
        /\ w !! BillingService.NewObjectID env = None
        /\ result.2 =
             <[BillingService.NewObjectID env :=
                 BillingService.encodeBilling
                   (BillingService.withBillingID billing
                      (BillingService.NewObjectID env))]> w)
  \/ (exists objectID billing,
        result.2 =
          alter (fun d => BillingService.billingUpdate billing ∪ d) objectID w)
  \/ (exists objectID, result.2 = delete objectID w)
  \/ result.2 = ∅.
Proof.
  simpl. unfold BillingService.billingService.
  repeat case_match; try (by left).
  - unfold BillingService.listBillings. left. by repeat case_match.
  - unfold BillingService.createBilling.
    destruct (negb _); [by left|].
    destruct (BillingService.bodyBilling req) as [billing|]; [|by left].
    destruct (_ || _) eqn:Hins; [by left|]. simpl.
    apply orb_false_iff in Hins as [_ Hfresh].
    apply bool_decide_eq_false in Hfresh. simpl in Hfresh.
    right. left. exists billing. split_and!; try done.
    destruct (w !! BillingService.NewObjectID env) eqn:Hl; [|done].
    destruct Hfresh. by eexists.
  - unfold BillingService.removeAllBillings.
    destruct (negb _); [by left|].
    destruct (BillingService.dbFails env OpDeleteMany); [by left|].
    by do 4 right.
  - unfold BillingService.getBilling. left. by repeat case_match.
  - unfold BillingService.updateBilling.
    destruct (negb _); [by left|].
    destruct (ObjectIDFromHex _) as [objectID|]; [|by left].
    destruct (BillingService.bodyBilling req) as [billing|]; [|by left].
    destruct (BillingService.dbFails env OpUpdateOne); [by left|].
    do 2 right. left. by exists objectID, billing.
  - unfold BillingService.removeBilling.
    destruct (negb _); [by left|].
    destruct (ObjectIDFromHex _) as [objectID|]; [|by left].
    destruct (BillingService.dbFails env OpDeleteOne); [by left|].
    do 3 right. left. by exists objectID.
Qed.

Lemma billingService_keeps_wellFormed env req w :
  BillingService.wellFormed w ->
  BillingService.wellFormed (BillingService.billingService env req w).2.
Proof.
  intros Hwf.
  destruct (billingService_cases env req w)
    as [->|[(billing & _ & _ & ->)|[(objectID & billing & ->)
        |[(objectID & ->)| ->]]]].
  - done.
  - intros id d. rewrite lookup_insert. case_decide as Heq.
    + subst id. intros [= <-]. by eexists.
    + apply Hwf.
  - intros id d. rewrite lookup_alter. case_decide as Heq; [subst id|apply Hwf].
    destruct (w !! objectID) as [d0|] eqn:Hd0; [|done]. simpl. intros [= <-].
    destruct (Hwf objectID d0 Hd0) as (old & -> & Hold).
    rewrite billingUpdate_replaces. by eexists.
  - intros id d. rewrite lookup_delete. case_decide; [done|apply Hwf].
  - intros id d. by rewrite lookup_empty.
Qed.

(** X18: every request to the billing service keeps the collection
    well-formed, each document the encoding of a record stored under its
    own id; so on a well-formed collection, with a driver that decodes what
    it encoded and a store that answers, [listBillings] never fails to
    decode: it answers 200 with one record for each document. *)
Theorem billing_collection_stays_readable env req w :
  BillingService.wellFormed w ->
  BillingService.wellFormed (BillingService.billingService env req w).2
  /\ forall env' req',
       BillingService.method req' = "GET" ->
       BillingService.dbFails env' OpFind = false ->
       BillingService.dbFails env' OpCursorAll = false ->
       (forall b, BillingService.decodeBilling env' (BillingService.encodeBilling b)
                  = Some b) ->
       exists bs,
         BillingService.listBillings env' req'
           (BillingService.billingService env req w).2 =
         ({| BillingService.code := StatusOK;
             BillingService.body := BillingService.BBillings bs |},
          (BillingService.billingService env req w).2)
         /\ length bs = size (BillingService.billingService env req w).2.
Proof.
  intros Hwf.
  pose proof (billingService_keeps_wellFormed env req w Hwf) as Hwf'.
  split; [done|].
  set (w' := (BillingService.billingService env req w).2) in *.
  intros env' req' Hm Hfind Hcursor Hround.
  unfold BillingService.listBillings. rewrite Hm, Hfind, Hcursor. simpl.
  destruct (mapM (BillingService.decodeBilling env') (map_to_list w').*2)
    as [bs|] eqn:Hall.
  - exists bs. split; [done|].
    apply length_mapM in Hall. rewrite <- Hall, length_fmap.
    apply length_map_to_list.
  - exfalso. apply mapM_None in Hall. apply Exists_exists in Hall as (d & Hin & Hd).
    apply list_elem_of_fmap in Hin as ([id d'] & -> & Hin).
    apply elem_of_map_to_list in Hin. simpl in Hd.
    destruct (Hwf' id d' Hin) as (b & -> & _). by rewrite Hround in Hd.
Qed.

(** X19: no route of the billing service passes through the gate the
    service defines: a DELETE of [/billings/removeAllBillings] empties the
    collection and a DELETE of [/billings/remove/<id>] removes the record
    for a caller for whom [isAdmin] is false. *)
Theorem billing_removal_is_not_gated env req w :
  BillingService.isAdmin env req = false ->
  BillingService.method req = "DELETE" ->
  (BillingService.path req = "/billings/removeAllBillings" ->
   BillingService.dbFails env OpDeleteMany = false ->
   BillingService.billingService env req w =
     ({| BillingService.code := StatusNoContent;
         BillingService.body := BillingService.BEmpty |}, ∅))
  /\ (forall objectID rest,
        BillingService.path req = "/billings/remove/" ++ rest ->
        ObjectIDFromHex rest = Some objectID ->
        BillingService.dbFails env OpDeleteOne = false ->
        BillingService.billingService env req w =
          ({| BillingService.code := StatusNoContent;
              BillingService.body := BillingService.BEmpty |},
           delete objectID w)).
Proof.
  intros _ Hm. split.
  - intros Hp Hdb. unfold BillingService.billingService. rewrite Hp. simpl.
    unfold BillingService.removeAllBillings. by rewrite Hm, Hdb.
  - intros objectID rest Hp Hid Hdb.
    unfold BillingService.billingService. rewrite Hp. simpl.
    destruct rest as [|c rest']; [done|]. simpl.
    unfold BillingService.removeBilling. rewrite Hm, Hp. simpl.
    change (strDrop 17 ("/billings/remove/" ++ String c rest'))
      with (String c rest').
    by rewrite Hid, Hdb.
Qed.

(** ** The movie lookup service *)

Lemma digitValue_digitChar d :
  0 <= d < 10 -> digitValue (MovieInfo.digitChar d) = Some d.
Proof.
  intros Hd.
  assert (Hcases : d = 0 \/ d = 1 \/ d = 2 \/ d = 3 \/ d = 4 \/ d = 5
                   \/ d = 6 \/ d = 7 \/ d = 8 \/ d = 9) by lia.
  by repeat destruct Hcases as [->|Hcases]; [..|subst d].
Qed.

Lemma decimal_formatBits fuel : forall u acc,
  0 <= u < 10 ^ Z.of_nat fuel ->
  exists k : nat, forall a,
    decimal a (MovieInfo.formatBits fuel u acc) =
    decimal (a * 10 ^ Z.of_nat k + u) acc.
Proof.
  induction fuel as [|fuel IH]; intros u acc Hu.
  { exists 0%nat. intros a. simpl in *. f_equal. lia. }
  simpl MovieInfo.formatBits.
  assert (Hdigit : digitValue (MovieInfo.digitChar (u mod 10)) = Some (u mod 10)).
  { apply digitValue_digitChar. apply Z.mod_pos_bound. lia. }
  destruct (Z.ltb_spec u 10) as [Hsmall|Hbig].
  - exists 1%nat. intros a. simpl decimal. rewrite Hdigit.
    rewrite Z.mod_small by lia. f_equal. lia.
  - destruct (IH (u / 10) (String (MovieInfo.digitChar (u mod 10)) acc))
      as [k Hk].
    { split; [apply Z.div_pos; lia|].
      apply Z.div_lt_upper_bound; [lia|].
      rewrite Nat2Z.inj_succ, Z.pow_succ_r in Hu by lia. lia. }
    exists (S k). intros a. rewrite Hk. simpl decimal. rewrite Hdigit.
    f_equal. rewrite Nat2Z.inj_succ, Z.pow_succ_r by lia.
    pose proof (Z.div_mod u 10). lia.
Qed.

Lemma formatBits_head fuel : forall u acc,
  0 <= u ->
  exists d rest,
    0 <= d < 10
    /\ MovieInfo.formatBits (S fuel) u acc = String (MovieInfo.digitChar d) rest.
Proof.
  induction fuel as [|fuel IH]; intros u acc Hu.
  - exists (u mod 10). simpl.
    destruct (u <? 10); eexists; (split; [apply Z.mod_pos_bound; lia|done]).
  - change (MovieInfo.formatBits (S (S fuel)) u acc)
      with (if u <? 10 then String (MovieInfo.digitChar (u mod 10)) acc
            else MovieInfo.formatBits (S fuel) (u / 10)
                   (String (MovieInfo.digitChar (u mod 10)) acc)).
    destruct (u <? 10).
    + exists (u mod 10). eexists. split; [apply Z.mod_pos_bound; lia|done].
    + apply IH. apply Z.div_pos; lia.
Qed.

Lemma Atoi_unsigned c rest :
  c <> "-"%char -> c <> "+"%char ->
  MovieInfo.Atoi (String c rest) =
  match decimal 0 (String c rest) with
  | None => None
  | Some v =>
      if (MovieInfo.minInt <=? v) && (v <=? MovieInfo.maxInt) then Some v
      else None
  end.
Proof.
  intros Hminus Hplus. unfold MovieInfo.Atoi.
  destruct c as [[] [] [] [] [] [] [] []];
    first [reflexivity | by destruct Hminus | by destruct Hplus].
Qed.

Lemma Atoi_minus c rest :
  MovieInfo.Atoi (String "-" (String c rest)) =
  match decimal 0 (String c rest) with
  | None => None
  | Some v =>
      if (MovieInfo.minInt <=? - v) && (- v <=? MovieInfo.maxInt) then Some (- v)
      else None
  end.
Proof. reflexivity. Qed.

Lemma digitChar_no_sign d :
  0 <= d < 10 ->
  MovieInfo.digitChar d <> "-"%char /\ MovieInfo.digitChar d <> "+"%char.
Proof.
  intros Hd.
  assert (Hcases : d = 0 \/ d = 1 \/ d = 2 \/ d = 3 \/ d = 4 \/ d = 5
                   \/ d = 6 \/ d = 7 \/ d = 8 \/ d = 9) by lia.
  by repeat destruct Hcases as [->|Hcases]; [..|subst d].
Qed.

(** [Atoi] reads back what [Itoa] writes, for every value of an [int]. *)
Lemma Atoi_Itoa i :
  MovieInfo.minInt <= i <= MovieInfo.maxInt ->
  MovieInfo.Atoi (MovieInfo.Itoa i) = Some i.
Proof.
  unfold MovieInfo.minInt, MovieInfo.maxInt. intros Hi.
  assert (Hpow : 2 ^ 63 < 10 ^ Z.of_nat 19) by done.
  unfold MovieInfo.Itoa. destruct (Z.ltb_spec i 0) as [Hneg|Hpos].
  - destruct (formatBits_head 18 (- i) EmptyString) as (d & rest & Hd & Hhead);
      [lia|].
    destruct (decimal_formatBits 19 (- i) EmptyString) as [k Hk]; [lia|].
    rewrite Hhead in *. rewrite Atoi_minus, Hk. simpl decimal.
    replace (0 * 10 ^ Z.of_nat k + - i) with (- i) by lia.
    rewrite Z.opp_involutive.
    unfold MovieInfo.minInt, MovieInfo.maxInt.
    destruct (Z.leb_spec (- 2 ^ 63) i); [|lia].
    destruct (Z.leb_spec i (2 ^ 63 - 1)); [done|lia].
  - destruct (formatBits_head 18 i EmptyString) as (d & rest & Hd & Hhead);
      [lia|].
    destruct (decimal_formatBits 19 i EmptyString) as [k Hk]; [lia|].
    rewrite Hhead in *.
    destruct (digitChar_no_sign d Hd) as [Hminus Hplus].
    rewrite Atoi_unsigned, Hk by done. simpl decimal.
    replace (0 * 10 ^ Z.of_nat k + i) with i by lia.
    unfold MovieInfo.minInt, MovieInfo.maxInt.
    destruct (Z.leb_spec (- 2 ^ 63) i); [|lia].
    destruct (Z.leb_spec i (2 ^ 63 - 1)); [done|lia].
Qed.

Lemma int32_small z : - 2 ^ 31 <= z < 2 ^ 31 -> MovieInfo.int32 z = z.
Proof.
  unfold MovieInfo.int32.
  change (2 ^ 31) with 2147483648. change (2 ^ 32) with 4294967296.
  intros Hz. rewrite Z.mod_small by lia. lia.
Qed.

Lemma Split_comma_free s :
  MovieInfo.contains "," s = false -> MovieInfo.Split s "," = [s].
Proof.
  induction s as [|c s IH]; simpl; [done|].
  intros Hc. apply orb_false_iff in Hc as [Hc Hs].
  rewrite Hc, (IH Hs). done.
Qed.

Lemma Split_piece s t :
  MovieInfo.contains "," s = false ->
  MovieInfo.Split (s ++ "," ++ t) "," = s :: MovieInfo.Split t ",".
Proof.
  induction s as [|c s IH]; simpl; [done|].
  intros Hc. apply orb_false_iff in Hc as [Hc Hs].
  rewrite Hc. simpl in IH. by rewrite (IH Hs).
Qed.

Lemma Split_Join cast :
  cast <> [] ->
  Forall (fun name => MovieInfo.contains "," name = false) cast ->
  MovieInfo.Split (MovieInfo.Join cast ",") "," = cast.
Proof.
  induction cast as [|name rest IH]; [done|]. intros _ Hfree.
  apply Forall_cons in Hfree as [Hname Hrest].
  destruct rest as [|name' rest].
  - simpl. by apply Split_comma_free.
  - change (MovieInfo.Join (name :: name' :: rest) ",")
      with (name ++ "," ++ MovieInfo.Join (name' :: rest) ",").
    rewrite Split_piece by done. f_equal. by apply IH.
Qed.

Lemma Split_pieces_comma_free s :
  Forall (fun piece => MovieInfo.contains "," piece = false)
         (MovieInfo.Split s ",").
Proof.
  induction s as [|c s IH]; simpl; [by repeat constructor|].
  destruct (Ascii.eqb_spec c ",") as [->|Hc].
  - by constructor.
  - destruct (MovieInfo.Split s ",") as [|piece pieces].
    + repeat constructor. simpl. apply orb_false_iff. split; [|done].
      by apply Ascii.eqb_neq.
    + apply Forall_cons in IH as [Hpiece Hpieces]. constructor; [|done].
      simpl. apply orb_false_iff. split; [|done]. by apply Ascii.eqb_neq.
Qed.

(** X20: a movie that [SetMovieInfo] has stored comes back from
    [GetMovieInfo] with its year and its director; its cast comes back as
    it was exactly when it is not empty and no name has a comma: an empty
    cast comes back as one empty name, and a name with a comma comes back
    in pieces.  The other titles are as before. *)
Theorem stored_movie_comes_back (data : MovieInfo.MovieData) (db : MovieInfo.MovieDb) :
  - 2 ^ 31 <= MovieInfo.Year data < 2 ^ 31 ->
  let db' := (MovieInfo.SetMovieInfo data db).2 in
  let cast' := MovieInfo.Split (MovieInfo.Join (MovieInfo.Cast data) ",") "," in
  MovieInfo.GetMovieInfo (MovieInfo.Title data) db' =
    Some (MovieInfo.mkMovieReply (MovieInfo.Year data) (MovieInfo.Director data)
            cast')
  /\ (cast' = MovieInfo.Cast data <->
      MovieInfo.Cast data <> []
      /\ Forall (fun name => MovieInfo.contains "," name = false)
                (MovieInfo.Cast data))
  /\ (MovieInfo.Cast data = [] -> cast' = [EmptyString])
  /\ (forall title, title <> MovieInfo.Title data ->
        MovieInfo.GetMovieInfo title db' = MovieInfo.GetMovieInfo title db).
Proof.
  intros Hyear db' cast'. split_and!.
  - unfold MovieInfo.GetMovieInfo. subst db'. simpl.
    rewrite lookup_insert_eq. simpl.
    rewrite Atoi_Itoa, int32_small; [done|done|].
    unfold MovieInfo.minInt, MovieInfo.maxInt.
    change (2 ^ 31) with 2147483648 in Hyear.
    change (2 ^ 63) with 9223372036854775808. lia.
  - subst cast'. split.
    + intros Heq. split.
      * intros Hnil. rewrite Hnil in Heq. done.
      * rewrite <- Heq. apply Split_pieces_comma_free.
    + intros [Hne Hfree]. by apply Split_Join.
  - intros Hnil. subst cast'. by rewrite Hnil.
  - intros title Hne. unfold MovieInfo.GetMovieInfo. subst db'. simpl.
    by rewrite lookup_insert_ne.
Qed.



(** ** What a patch can store *)

Lemma buildUpdateDoc_sets env updates acc setDoc kv key value :
  NoDup updates.*1 ->
  kv ∈ updates ->
  patchStep env kv = StepSet key value ->
  buildUpdateDoc env updates acc = inr setDoc ->
  setDoc !! key = Some value.
Proof.
  revert acc. induction updates as [|kv' rest IH]; intros acc Hnd Hin Hstep.
  { by apply elem_of_nil in Hin. }
  apply NoDup_cons in Hnd as [Hfresh Hnd].
  rewrite buildUpdateDoc_step.
  apply elem_of_cons in Hin as [<-|Hin].
  - rewrite Hstep. intros Hb.
    rewrite (buildUpdateDoc_frame env rest _ setDoc key Hb).
    + apply lookup_insert_eq.
    + left. by rewrite (patchStep_key env kv key value Hstep).
  - destruct (patchStep env kv'); [done|by apply IH..].
Qed.

Lemma updateTask_stores env req w updates kv key value :
  bodyMap req = Some updates ->
  NoDup updates.*1 ->
  kv ∈ updates ->
  patchStep env kv = StepSet key value ->
  key <> "invoice_id" ->
  code (updateTask env req w).1 = StatusNoContent ->
  exists objectID d,
    ObjectIDFromHex (strDrop 14 (path req)) = Some objectID
    /\ tasks (updateTask env req w).2 !! objectID = Some d
    /\ d !! key = Some value.
Proof.
  intros Hbody Hnd Hin Hstep Hkey Hcode.
  destruct (updateTask_cases env req w)
    as [[Hne _]|(objectID & updates' & setDoc & currentTask & written
                 & Hid & Hbody' & Hpatch & Hload & _ & Htasks & Hwritten)];
    [done|].
  rewrite Hbody in Hbody'. injection Hbody' as <-.
  destruct (loaded_document env w objectID currentTask Hload) as [d Hd].
  exists objectID, (written ∪ d). split; [done|]. split.
  - rewrite Htasks, lookup_alter, decide_True by done. by rewrite Hd.
  - apply lookup_union_Some_l.
    assert (Hset : setDoc !! key = Some value)
      by (by eapply buildUpdateDoc_sets).
    destruct Hwritten as [[_ ->]|[_ (created & _ & ->)]]; [done|].
    by rewrite lookup_insert_ne.
Qed.

Lemma buildUpdateDoc_passes env updates acc :
  (forall kv r, kv ∈ updates -> patchStep env kv <> StepReturn r) ->
  exists setDoc, buildUpdateDoc env updates acc = inr setDoc.
Proof.
  revert acc. induction updates as [|kv rest IH]; intros acc Hpass.
  { by exists acc. }
  rewrite buildUpdateDoc_step.
  assert (Hrest : forall kv' r, kv' ∈ rest -> patchStep env kv' <> StepReturn r).
  { intros kv' r Hin. apply Hpass. by apply list_elem_of_further. }
  destruct (patchStep env kv) as [r| |] eqn:Hstep; [|by apply IH..].
  destruct (Hpass kv r (list_elem_of_here _ _) Hstep).
Qed.

(** X22: nothing checks the parent a patch gives: a patch whose
    [parent_task] is the id of the task itself, and whose other entries the
    loop does not return on, is answered 204 when the task is found, the
    billing call, if the patch needs one, succeeds and the write returns
    no error; the task is then stored as its own parent, and the query by
    which [getTask] collects the subtasks of the task selects the task
    itself. *)
Theorem task_can_be_its_own_parent env req w updates parent objectID currentTask :
  method req = "PUT" ->
  ObjectIDFromHex (strDrop 14 (path req)) = Some objectID ->
  bodyMap req = Some updates ->
  NoDup updates.*1 ->
  ("parent_task", VStr parent) ∈ updates ->
  ObjectIDFromHex parent = Some objectID ->
  (forall kv r,
     kv ∈ updates -> kv.1 <> "parent_task" -> patchStep env kv <> StepReturn r) ->
  findOneTask env w objectID = Some currentTask ->
  (Status currentTask <> "done" -> mapIndex updates "status" = VStr "done" ->
   jsonMarshalBilling (invoiceFor currentTask) = true
   /\ exists created,
        billingService env (invoiceFor currentTask) =
          HttpResponded StatusOK (Some created)) ->
  dbFails env OpUpdateOne = false ->
  (updateTask env req w).1 = {| code := StatusNoContent; body := BEmpty |}
  /\ exists d,
       tasks (updateTask env req w).2 !! objectID = Some d
       /\ d !! "parent_task" = Some (VOid objectID)
       /\ d ∈ findDocs (updateTask env req w).2 (fieldIs "parent_task" objectID).
Proof.
  intros Hm Hid Hbody Hnd Hin Hparent Hothers Hload Hbilling Hdb.
  assert (Hself : patchStep env ("parent_task", VStr parent) =
                  StepSet "parent_task" (VOid objectID)).
  { unfold patchStep. simpl. by rewrite Hparent. }
  destruct (buildUpdateDoc_passes env updates ∅) as [setDoc Hpatch].
  { intros [key value] r Hkv. destruct (decide (key = "parent_task")) as [->|Hne].
    - rewrite <- (mapIndex_elem updates "parent_task" value Hnd Hkv).
      rewrite (mapIndex_elem updates "parent_task" (VStr parent) Hnd Hin).
      by rewrite Hself.
    - by apply Hothers. }
  assert (Hcode : (updateTask env req w).1 =
                  {| code := StatusNoContent; body := BEmpty |}).
  { rewrite (updateTask_at_guard env req w objectID updates setDoc currentTask)
      by done.
    destruct (becomesDone currentTask updates) eqn:Hguard.
    - apply becomesDone_spec in Hguard as [Hst Hdone].
      destruct (Hbilling Hst Hdone) as [Hmarshal [created Hanswer]].
      rewrite (createInvoice_succeeds env currentTask w created) by done.
      unfold persistUpdate. by rewrite Hdb.
    - unfold persistUpdate. by rewrite Hdb. }
  split; [done|].
  destruct (updateTask_stores env req w updates ("parent_task", VStr parent)
              "parent_task" (VOid objectID) Hbody Hnd Hin Hself)
    as (objectID' & d & Hid' & Hd & Hfield); [done|by rewrite Hcode|].
  rewrite Hid in Hid'. injection Hid' as <-.
  exists d. split_and!; try done.
  apply findDocs_elem. split; [by apply fieldIs_spec|by exists objectID].
Qed.

(** X23: the assignee a patch gives is stored as the JSON value it is, not
    as an object id: after a patch with [assigned_to] that is answered 204,
    the task is selected by the overlap filter of no candidate and by the
    query of [listTasksByUser] for no user. *)
Theorem reassigned_task_is_lost_to_queries env req w updates value :
  bodyMap req = Some updates ->
  NoDup updates.*1 ->
  ("assigned_to", value) ∈ updates ->
  (forall o, value <> VOid o) ->
  code (updateTask env req w).1 = StatusNoContent ->
  exists objectID d,
    ObjectIDFromHex (strDrop 14 (path req)) = Some objectID
    /\ tasks (updateTask env req w).2 !! objectID = Some d
    /\ d !! "assigned_to" = Some value
    /\ (forall candidate, overlapFilter candidate d = false)
    /\ (forall user, fieldIs "assigned_to" user d = false).
Proof.
  intros Hbody Hnd Hin Hjson Hcode.
  destruct (updateTask_stores env req w updates ("assigned_to", value)
              "assigned_to" value Hbody Hnd Hin)
    as (objectID & d & Hid & Hd & Hfield); [done..|].
  exists objectID, d. split_and!; try done.
  - intros candidate. unfold overlapFilter. rewrite Hfield.
    destruct value; try done. by destruct (Hjson o).
  - intros user. unfold fieldIs. rewrite Hfield.
    destruct value; try done. by destruct (Hjson o).
Qed.

(** ** The further properties on concrete requests *)

Lemma strictDecodeTask_status d t st :
  strictDecodeTask d = Some t -> d !! "status" = Some (VStr st) -> Status t = st.
Proof.
  unfold strictDecodeTask. intros Hdec Hst.
  destruct (fieldOid d "_id"); simpl in Hdec; [|done].
  destruct (fieldString d "title"); simpl in Hdec; [|done].
  destruct (fieldString d "description"); simpl in Hdec; [|done].
  destruct (fieldOid d "assigned_to"); simpl in Hdec; [|done].
  destruct (fieldString d "status") as [st'|] eqn:Hfield; simpl in Hdec; [|done].
  destruct (fieldFloat d "hours"); simpl in Hdec; [|done].
  destruct (fieldTime d "start_date"); simpl in Hdec; [|done].
  destruct (fieldTime d "end_date"); simpl in Hdec; [|done].
  destruct (fieldOid d "invoice_id"); simpl in Hdec; [|done].
  destruct (fieldOidPtr d "parent_task"); simpl in Hdec; [|done].
  injection Hdec as <-. simpl.
  unfold fieldString in Hfield. rewrite Hst in Hfield. congruence.
Qed.

Lemma strictDecodeBilling_encode b :
  strictDecodeBilling (BillingService.encodeBilling b) = Some b.
Proof. by destruct b. Qed.

Lemma removeTask_removes_only_target_witness :
  tasks (removeTask envBillingUp (taskRequest "DELETE" removeT1 EmptyString)
           (oneTask reportTask)).2 !! taskT1 = None.
Proof.
  exact (proj1 (proj2 (removeTask_removes_only_target envBillingUp
           (taskRequest "DELETE" removeT1 EmptyString) (oneTask reportTask)
           taskT1 eq_refl eq_refl eq_refl))).
Defined.

Lemma failed_request_writes_nothing_witness :
  tasks (updateTask envBillingDown (putRequest updateT1 markDone)
           (oneTask reportTask)).2 = tasks (oneTask reportTask).
Proof.
  refine (proj1 (failed_request_writes_nothing envBillingDown
           (putRequest updateT1 markDone) (oneTask reportTask) updateTask _) _ _).
  - unfold taskHandlers. do 3 apply list_elem_of_further. apply list_elem_of_here.
  - vm_compute. discriminate.
  - vm_compute. discriminate.
Defined.

Lemma update_touches_one_document_witness :
  dom (tasks (updateTask envBillingUp (putRequest updateT1 markDone)
                (oneTask reportTask)).2) = dom (tasks (oneTask reportTask)).
Proof.
  exact (proj2 (proj2 (update_touches_one_document envBillingUp
           (putRequest updateT1 markDone) (oneTask reportTask)))).
Defined.

Lemma update_ignores_map_order_witness :
  (updateTask envBillingUp (putRequest updateT1 renamePatchSwapped)
     (oneTask reportTask)).2 =
  (updateTask envBillingUp (putRequest updateT1 renamePatch) (oneTask reportTask)).2.
Proof.
  refine (proj1 (update_ignores_map_order envBillingUp
           (putRequest updateT1 renamePatch) (putRequest updateT1 renamePatchSwapped)
           (oneTask reportTask) renamePatch renamePatchSwapped
           eq_refl eq_refl eq_refl eq_refl _ _)).
  - apply perm_swap.
  - vm_compute. repeat constructor; rewrite ?not_elem_of_cons;
      repeat split; try discriminate; apply not_elem_of_nil.
Defined.

Lemma plain_patch_is_idempotent_witness :
  (updateTask envBillingUp (putRequest updateT1 renamePatch)
     (updateTask envBillingUp (putRequest updateT1 renamePatch)
        (oneTask reportTask)).2).2 =
  (updateTask envBillingUp (putRequest updateT1 renamePatch) (oneTask reportTask)).2.
Proof.
  refine (plain_patch_is_idempotent envBillingUp (putRequest updateT1 renamePatch)
            (oneTask reportTask) renamePatch eq_refl _ eq_refl eq_refl).
  vm_compute. discriminate.
Defined.

Lemma repeated_request_bills_once_witness :
  billingRequests
    (updateTask envBillingUp (putRequest updateT1 markDone)
       (updateTask envBillingUp (putRequest updateT1 markDone)
          (oneTask reportTask)).2).2 =
  billingRequests
    (updateTask envBillingUp (putRequest updateT1 markDone) (oneTask reportTask)).2.
Proof.
  refine (proj2 (repeated_request_bills_once envBillingUp
           (putRequest updateT1 markDone) (oneTask reportTask) markDone
           eq_refl _ eq_refl strictDecodeTask_status eq_refl)).
  vm_compute. repeat constructor; rewrite ?not_elem_of_cons;
    repeat split; try discriminate; apply not_elem_of_nil.
Defined.

Lemma invoice_outlives_failed_write_witness :
  updateTask envWriteFails (putRequest updateT1 markDone) (oneTask reportTask) =
  (httpError "Failed to update task" StatusInternalServerError,
   postBilling (oneTask reportTask) (invoiceFor reportTask)).
Proof.
  refine (proj1 (invoice_outlives_failed_write envWriteFails
           (putRequest updateT1 markDone) (oneTask reportTask) taskT1 markDone
           (<["hours" := VNum 8%float]> (<["status" := VStr "done"]> ∅))
           reportTask (mkBilling 77%N userU1 taskT1 2.5%float 250%float)
           eq_refl eq_refl eq_refl eq_refl eq_refl _ eq_refl eq_refl eq_refl
           eq_refl)).
  vm_compute. discriminate.
Defined.

Lemma task_created_done_skips_billing_witness :
  billingRequests
    (updateTask envBillingUp (putRequest updateNew markDone)
       (createTask envBillingUp (postTask doneTask) emptyWorld).2).2 = [].
Proof.
  exact (task_created_done_skips_billing envBillingUp envBillingUp
           (postTask doneTask) (putRequest updateNew markDone) emptyWorld doneTask
           eq_refl eq_refl eq_refl eq_refl strictDecodeTask_status).
Defined.

Lemma created_task_can_be_fetched_witness :
  (createTask envBillingUp (postTask secondTask) (oneTask reportTask)).1 =
  {| code := StatusOK;
     body := BTask (taskToInsert envBillingUp (oneTask reportTask) secondTask) |}.
Proof.
  exact (proj1 (created_task_can_be_fetched envBillingUp envBillingUp
           (postTask secondTask) (taskRequest "GET" getNew EmptyString)
           (oneTask reportTask) secondTask
           eq_refl eq_refl eq_refl eq_refl eq_refl eq_refl eq_refl)).
Defined.

Lemma create_then_remove_restores_witness :
  removeTask envBillingUp (taskRequest "DELETE" removeNew EmptyString)
    (createTask envBillingUp (postTask secondTask) (oneTask reportTask)).2 =
  ({| code := StatusNoContent; body := BEmpty |}, oneTask reportTask).
Proof.
  exact (create_then_remove_restores envBillingUp envBillingUp
           (postTask secondTask) (taskRequest "DELETE" removeNew EmptyString)
           (oneTask reportTask) eq_refl eq_refl eq_refl eq_refl).
Defined.

Lemma listTasksByUser_lists_the_assigned_witness :
  exists docs,
    Forall2 (fun d t => decodeTask envBillingUp d = Some t) docs [reportTask]
    /\ forall d, d ∈ docs <->
         d !! "assigned_to" = Some (VOid userU1)
         /\ exists id, tasks (oneTask reportTask) !! id = Some d.
Proof.
  exact (listTasksByUser_lists_the_assigned envBillingUp
           (taskRequest "GET" listU1 EmptyString) (oneTask reportTask) userU1
           [reportTask] eq_refl eq_refl).
Defined.

Lemma undecodable_task_is_stuck_witness :
  getTask envBillingUp
    (taskRequest "GET" "/tasks/get/0000000000000000000000b2" EmptyString)
    brokenWorld =
  (httpError "Task not found" StatusNotFound, brokenWorld).
Proof.
  refine (proj1 (proj2 (undecodable_task_is_stuck envBillingUp brokenWorld taskT1
           (<["hours" := VStr "plenty"]> (encodeTask reportTask)) _ eq_refl))
           (taskRequest "GET" "/tasks/get/0000000000000000000000b2" EmptyString)
           eq_refl).
  reflexivity.
Defined.

Lemma gate_opens_for_admin_only_witness :
  adminMiddleware removeTask envRoot (taskRequest "DELETE" removeT1 "root")
    (oneTask reportTask) =
  removeTask envRoot (taskRequest "DELETE" removeT1 "root") (oneTask reportTask).
Proof.
  exact (proj2 (proj2 (gate_opens_for_admin_only removeTask envRoot
           (taskRequest "DELETE" removeT1 "root") (oneTask reportTask))) eq_refl).
Defined.

Lemma ensure_adds_only_the_collection_witness :
  "tasks" ∈ collectionsOf (ensureTaskCollection noAdminError ∅).2 "taskmanagement".
Proof.
  exact (proj1 (proj1 (ensure_adds_only_the_collection noAdminError
           "taskmanagement" "tasks" ∅) eq_refl)).
Defined.

Lemma ensure_is_idempotent_witness :
  ensureBillingCollection noAdminError
    (ensureBillingCollection noAdminError ∅).2 =
  (true, (ensureBillingCollection noAdminError ∅).2).
Proof.
  exact (proj2 (ensure_is_idempotent noAdminError noAdminError
           "billing" "billings" ∅ eq_refl eq_refl) eq_refl).
Defined.

Lemma created_billing_can_be_fetched_witness :
  BillingService.getBilling (billingEnv 700%N usersDown)
    (billingRequest "GET" "/billings/get/0000000000000000000002bc" None)
    (BillingService.createBilling (billingEnv 700%N usersDown)
       (billingRequest "POST" "/billings/create" (Some sampleBilling)) ∅).2 =
  ({| BillingService.code := StatusOK;
      BillingService.body :=
        BillingService.BBilling (mkBilling 700%N userU1 taskT1 2.5%float 250%float) |},
   (BillingService.createBilling (billingEnv 700%N usersDown)
      (billingRequest "POST" "/billings/create" (Some sampleBilling)) ∅).2).
Proof.
  exact (proj2 (created_billing_can_be_fetched (billingEnv 700%N usersDown)
           (billingEnv 700%N usersDown)
           (billingRequest "POST" "/billings/create" (Some sampleBilling))
           (billingRequest "GET" "/billings/get/0000000000000000000002bc" None)
           ∅ sampleBilling eq_refl eq_refl eq_refl eq_refl eq_refl eq_refl eq_refl
           strictDecodeBilling_encode)).
Defined.

Lemma updateBilling_replaces_the_record_witness :
  BillingService.updateBilling (billingEnv 700%N usersDown)
    (billingRequest "PUT" "/billings/update/0000000000000000000002bc"
       (Some sampleBilling))
    {[ 700%N := BillingService.encodeBilling
                  (mkBilling 700%N 5%N 6%N 1%float 100%float) ]} =
  ({| BillingService.code := StatusNoContent;
      BillingService.body := BillingService.BEmpty |},
   <[700%N := BillingService.encodeBilling
                (mkBilling 700%N userU1 taskT1 2.5%float 250%float)]>
     {[ 700%N := BillingService.encodeBilling
                   (mkBilling 700%N 5%N 6%N 1%float 100%float) ]}).
Proof.
  exact (proj1 (updateBilling_replaces_the_record (billingEnv 700%N usersDown)
           (billingRequest "PUT" "/billings/update/0000000000000000000002bc"
              (Some sampleBilling))
           {[ 700%N := BillingService.encodeBilling
                         (mkBilling 700%N 5%N 6%N 1%float 100%float) ]}
           700%N sampleBilling eq_refl eq_refl eq_refl eq_refl)
           (mkBilling 700%N 5%N 6%N 1%float 100%float) eq_refl).
Defined.

Lemma billing_collection_stays_readable_witness :
  exists bs,
    BillingService.listBillings (billingEnv 700%N usersDown)
      (billingRequest "GET" "/billings/list" None)
      (BillingService.billingService (billingEnv 700%N usersDown)
         (billingRequest "POST" "/billings/create" (Some sampleBilling)) ∅).2 =
    ({| BillingService.code := StatusOK;
        BillingService.body := BillingService.BBillings bs |},
     (BillingService.billingService (billingEnv 700%N usersDown)
        (billingRequest "POST" "/billings/create" (Some sampleBilling)) ∅).2)
    /\ length bs =
       size (BillingService.billingService (billingEnv 700%N usersDown)
               (billingRequest "POST" "/billings/create" (Some sampleBilling)) ∅).2.
Proof.
  refine (proj2 (billing_collection_stays_readable (billingEnv 700%N usersDown)
           (billingRequest "POST" "/billings/create" (Some sampleBilling)) ∅ _)
           (billingEnv 700%N usersDown)
           (billingRequest "GET" "/billings/list" None)
           eq_refl eq_refl eq_refl strictDecodeBilling_encode).
  intros id d Hd. by rewrite lookup_empty in Hd.
Defined.

Lemma billing_removal_is_not_gated_witness :
  BillingService.billingService (billingEnv 700%N usersAllMembers)
    (billingRequest "DELETE" "/billings/removeAllBillings" None)
    {[ 700%N := BillingService.encodeBilling sampleBilling ]} =
  ({| BillingService.code := StatusNoContent;
      BillingService.body := BillingService.BEmpty |}, ∅).
Proof.
  exact (proj1 (billing_removal_is_not_gated (billingEnv 700%N usersAllMembers)
           (billingRequest "DELETE" "/billings/removeAllBillings" None)
           {[ 700%N := BillingService.encodeBilling sampleBilling ]}
           eq_refl eq_refl) eq_refl eq_refl).
Defined.

Lemma stored_movie_comes_back_witness :
  MovieInfo.GetMovieInfo "Jackie Brown"
    (MovieInfo.SetMovieInfo pulpSequel MovieInfo.moviedb).2 =
  Some (MovieInfo.mkMovieReply 1997 "Quentin Tarantino"
          ["Pam Grier"; "Samuel Jackson"; "Robert De Niro"]).
Proof.
  refine (proj1 (stored_movie_comes_back pulpSequel MovieInfo.moviedb _)).
  vm_compute. split; [discriminate|reflexivity].
Defined.


Lemma task_can_be_its_own_parent_witness :
  (updateTask envBillingUp
     (putRequest updateT1
        [("title", VStr "loop"); ("parent_task", VStr "0000000000000000000000b2")])
     (oneTask reportTask)).1 = {| code := StatusNoContent; body := BEmpty |}
  /\ exists d,
       tasks (updateTask envBillingUp
                (putRequest updateT1
                   [("title", VStr "loop");
                    ("parent_task", VStr "0000000000000000000000b2")])
                (oneTask reportTask)).2 !! taskT1 = Some d
       /\ d !! "parent_task" = Some (VOid taskT1)
       /\ d ∈ findDocs
               (updateTask envBillingUp
                  (putRequest updateT1
                     [("title", VStr "loop");
                      ("parent_task", VStr "0000000000000000000000b2")])
                  (oneTask reportTask)).2
               (fieldIs "parent_task" taskT1).
Proof.
  refine (task_can_be_its_own_parent envBillingUp
            (putRequest updateT1
               [("title", VStr "loop");
                ("parent_task", VStr "0000000000000000000000b2")])
            (oneTask reportTask)
            [("title", VStr "loop"); ("parent_task", VStr "0000000000000000000000b2")]
            "0000000000000000000000b2" taskT1 reportTask
            eq_refl eq_refl eq_refl _ _ eq_refl _ eq_refl _ eq_refl).
  - vm_compute. repeat constructor; rewrite ?not_elem_of_cons;
      repeat split; try discriminate; apply not_elem_of_nil.
  - apply list_elem_of_further, list_elem_of_here.
  - intros kv r Hin Hkey.
    apply elem_of_cons in Hin as [->|Hin]; [discriminate|].
    apply elem_of_cons in Hin as [->|Hin]; [by destruct Hkey|].
    by apply elem_of_nil in Hin.
  - intros _ Hdone. vm_compute in Hdone. discriminate Hdone.
Defined.

Lemma reassigned_task_is_lost_to_queries_witness :
  exists objectID d,
    ObjectIDFromHex (strDrop 14 updateT1) = Some objectID
    /\ tasks (updateTask envBillingUp
                (putRequest updateT1
                   [("assigned_to", VStr "0000000000000000000000a1")])
                (oneTask reportTask)).2 !! objectID = Some d
    /\ d !! "assigned_to" = Some (VStr "0000000000000000000000a1")
    /\ (forall candidate, overlapFilter candidate d = false)
    /\ (forall user, fieldIs "assigned_to" user d = false).
Proof.
  refine (reassigned_task_is_lost_to_queries envBillingUp
            (putRequest updateT1 [("assigned_to", VStr "0000000000000000000000a1")])
            (oneTask reportTask)
            [("assigned_to", VStr "0000000000000000000000a1")]
            (VStr "0000000000000000000000a1") eq_refl _ _ _ eq_refl).
  - vm_compute. repeat constructor. apply not_elem_of_nil.
  - apply list_elem_of_here.
  - discriminate.
Defined.
